(** * Solar-farm dashboard: a shallow embedding of [app/main.py] and
    [app/utils.py], and the properties of the loader, the cleaner, the
    outlier detector and the page script.

    Layout: Part I holds the definitions (the table model, the effect monad,
    the two source files, and the collaborators that the dashboard imports
    but the application directory does not define); Part II holds the
    theorems. *)

From Stdlib Require Import Ascii String QArith Qcanon.
From stdpp Require Import base option strings list gmap numbers pretty.

Local Open Scope string_scope.
Local Open Scope list_scope.

(* ===================================================================== *)
(** * Part I: definitions                                                 *)
(* ===================================================================== *)

(** ** Python values that cross function boundaries *)

(** An instance of Python's [Exception]: its class name and [str(e)], the
    text that an f-string interpolation of the exception produces. *)
Record exn := Exception { exc_type : string; exc_text : string }.

(** A call either returns a value or raises. *)
Inductive outcome (A : Type) : Type :=
  | Returns (a : A)
  | Raises (e : exn).
Arguments Returns {A} a.
Arguments Raises {A} e.

(** ** Tables (pandas [DataFrame]) *)

Module pandas.

(** A defined cell: a number, a text, or a parsed timestamp (seconds). *)
Inductive value :=
  | Num (q : Qc)
  | Text (s : string)
  | Stamp (t : Z).

(** A cell; [None] is pandas' missing marker (NaN, NaT, None). *)
Definition cell : Type := option value.

(** A table: the length of its index and its named columns, in order. *)
Record DataFrame := mkFrame {
  nrows : nat;
  series : list (string * list cell)
}.

(** [pd.DataFrame()] *)
Definition empty_frame : DataFrame := mkFrame 0 [].

(** [df.columns] *)
Definition columns (d : DataFrame) : list string := (series d).*1.

(** [df.shape] *)
Definition shape (d : DataFrame) : nat * nat := (nrows d, length (series d)).

(** [col in df.columns] *)
Definition has_column (d : DataFrame) (col : string) : bool :=
  bool_decide (col ∈ columns d).

(** The first column carrying a given name. *)
Fixpoint get_series (ss : list (string * list cell)) (col : string)
  : option (list cell) :=
  match ss with
  | [] => None
  | (n, xs) :: rest => if decide (n = col) then Some xs else get_series rest col
  end.

(** [df[cols]] for a list of names: a new table with those columns, in
    the order asked; [KeyError] when one is not in the table. *)
Fixpoint select_series (ss : list (string * list cell)) (cols : list string)
  : outcome (list (string * list cell)) :=
  match cols with
  | [] => Returns []
  | c :: rest =>
      match get_series ss c with
      | None => Raises (Exception "KeyError" c)
      | Some xs =>
          match select_series ss rest with
          | Returns out => Returns ((c, xs) :: out)
          | Raises e => Raises e
          end
      end
  end.

Definition getitem (d : DataFrame) (cols : list string) : outcome DataFrame :=
  match select_series (series d) cols with
  | Returns ss => Returns (mkFrame (nrows d) ss)
  | Raises e => Raises e
  end.

(** [series.isnull().sum()] *)
Definition count_missing (xs : list cell) : nat :=
  length (filter (λ c : cell, c = None) xs).

(** [df.isnull().sum()]: the number of missing cells of every column. *)
Definition isnull_sum (d : DataFrame) : list (string * nat) :=
  (λ s : string * list cell, (s.1, count_missing s.2)) <$> series d.

End pandas.
Export pandas.

Global Instance value_eq_dec : EqDecision value.
Proof. solve_decision. Defined.

Global Instance DataFrame_eq_dec : EqDecision DataFrame.
Proof. solve_decision. Defined.

(** [df.duplicated().sum()]: the rows equal to an earlier row. *)
Definition row (d : DataFrame) (i : nat) : list (option cell) :=
  (λ s : string * list cell, s.2 !! i) <$> series d.

Fixpoint count_duplicated (seen rest : list (list (option cell))) : nat :=
  match rest with
  | [] => 0
  | r :: rest' =>
      (if bool_decide (r ∈ seen) then 1 else 0) + count_duplicated (r :: seen) rest'
  end.

Definition duplicated_sum (d : DataFrame) : nat :=
  count_duplicated [] (row d <$> seq 0 (nrows d)).

(** ** Strings and paths *)

(** [str.lower] on a string of ASCII characters, where it maps the
    letters A to Z to a to z and leaves every other character; a string is
    held as its bytes, and the properties below that depend on lowercasing
    are stated for ASCII names. *)
Definition lower_char (c : ascii) : ascii :=
  let n := N_of_ascii c in
  if ((65 <=? n) && (n <=? 90))%N then ascii_of_N (n + 32) else c.

Fixpoint str_map (f : ascii → ascii) (s : string) : string :=
  match s with
  | EmptyString => EmptyString
  | String c rest => String (f c) (str_map f rest)
  end.

Definition lower (s : string) : string := str_map lower_char s.

(** [s.replace(old, new)] for single characters. *)
Definition replace_char (old new : ascii) (s : string) : string :=
  str_map (λ c, if decide (c = old) then new else c) s.

Definition starts_with_slash (s : string) : bool :=
  match s with
  | String "/" _ => true
  | _ => false
  end.

Fixpoint ends_with_slash (s : string) : bool :=
  match s with
  | EmptyString => false
  | String c EmptyString => bool_decide (c = "/"%char)
  | String _ rest => ends_with_slash rest
  end.

(** [os.path.join(a, b)] on POSIX: an absolute [b] replaces [a]; a
    separator is added unless [a] is empty or already ends with one. *)
Definition os_path_join (a b : string) : string :=
  if starts_with_slash b then b
  else if bool_decide (a = EmptyString) || ends_with_slash a then a +:+ b
  else a +:+ "/" +:+ b.

(** ** The dashboard's world and its effect monad *)

(** The functions that the page calls and that live outside
    [app/main.py]: the chart helpers, the outlier detector, and seaborn's
    box plot (with the matplotlib calls around it). *)
Inductive helper :=
  | PlotCorrelationHeatmap
  | PlotTimeSeries
  | PlotWindRose
  | PlotWindDirectionDistribution
  | DetectOutliers
  | SnsBoxplot
  | PlotTemperatureVsHumidity
  | PlotTemperatureTrends
  | PlotPairPlot.

Global Instance helper_eq_dec : EqDecision helper.
Proof. solve_decision. Defined.

(** What streamlit shows, one constructor per kind of element. *)
Inductive element :=
  | st_sidebar_selectbox (label : string) (options : list string)
  | st_title (s : string)
  | st_tabs (labels : list string)
  | st_header (s : string)
  | st_subheader (s : string)
  | st_write (s : string)
  | st_error (s : string)
  | st_write_describe (d : DataFrame)
  | st_write_counts (counts : list (string * nat))
  | st_write_number (n : nat)
  | st_pyplot (h : helper) (d : DataFrame).

Global Instance element_eq_dec : EqDecision element.
Proof. solve_decision. Defined.

(** The state a run of the script acts on: the page built so far, the CSV
    files written so far, and the log of helper invocations (who was called,
    on which table), kept to tell an attempted step from a skipped one. *)
Record World := mkWorld {
  ui : list element;
  disk : gmap string DataFrame;
  calls : list (helper * DataFrame)
}.

(** State and exceptions: a computation takes the state and either returns
    or raises, in both cases with the state as it left it. *)
Definition ST (S A : Type) : Type := S → outcome A * S.

Global Instance ST_ret {S} : MRet (ST S) := λ A a w, (Returns a, w).

Global Instance ST_bind {S} : MBind (ST S) := λ A B f m w,
  match m w with
  | (Returns a, w') => f a w'
  | (Raises e, w') => (Raises e, w')
  end.

(** [try: body except Exception as e: handler(e)] *)
Definition try_except {S A} (body : ST S A) (handler : exn → ST S A)
  : ST S A := λ w,
  match body w with
  | (Raises e, w') => handler e w'
  | r => r
  end.

(** A pure call that may raise. *)
Definition lift {S A} (o : outcome A) : ST S A := λ w, (o, w).

(** The computations of the dashboard. *)
Abbreviation M := (ST World).

(** [if b: m] *)
Definition when (b : bool) (m : M unit) : M unit :=
  if b then m else mret tt.

(** Any [st.<element>(...)] call: the element is appended to the page. *)
Definition show (e : element) : M unit := λ w,
  (Returns tt, mkWorld (ui w ++ [e]) (disk w) (calls w)).

Definition log_call (h : helper) (d : DataFrame) : M unit := λ w,
  (Returns tt, mkWorld (ui w) (disk w) (calls w ++ [(h, d)])).

Definition to_csv (path : string) (d : DataFrame) : M unit := λ w,
  (Returns tt, mkWorld (ui w) (<[path := d]> (disk w)) (calls w)).

(** ** The collaborators of [app/main.py]

    The page imports its helpers from a module [utils]; the [utils.py] of
    the application directory defines none of them, and [pd.read_csv]
    depends on the files present. They enter the embedding as an interface:
    for every argument, what the call returns or raises. The spec
    describes the helpers as stateless functions that consume a table;
    accordingly a call gets the table as a value and leaves it as it is. *)
Class FileReader := {
  (** [pd.read_csv(path)] *)
  read_csv : string → outcome DataFrame
}.

Class Cleaner := {
  (** the table [clean_dataset(raw, output_path=path)] returns *)
  clean_result : DataFrame → string → outcome DataFrame
}.

Class Detector := {
  (** the rows [detect_outliers(table, columns)] returns *)
  detect_result : DataFrame → list string → outcome (list nat)
}.

Class Drawing := {
  (** a drawing helper on a table: [None] when it draws its figure,
      [Some e] when it raises [e] *)
  draw_result : helper → DataFrame → option exn
}.

(** ** [app/main.py] *)

Module main.
Section script.
Context `{FileReader, Cleaner, Detector, Drawing}.

Definition DATA_FOLDER : string := "data/original_datasets/".
Definition CLEANED_FOLDER : string := "data/cleaned_datasets/".

(** The dictionary keeps its insertion order, which the loading loop
    follows. *)
Definition DATASETS : list (string * string) :=
  [ ("Benin Malanville", os_path_join DATA_FOLDER "benin-malanville.csv");
    ("Sierra Leone Bumbuna", os_path_join DATA_FOLDER "sierraleone-bumbuna.csv");
    ("Togo Dapaong QC", os_path_join DATA_FOLDER "togo-dapaong_qc.csv") ].

Definition load_data (data_path : string) : M DataFrame :=
  try_except
    (lift (read_csv data_path))
    (λ e,
      show (st_error ("Failed to load data from " +:+ data_path +:+ ": "
                        +:+ exc_text e));;
      mret empty_frame).

(** Modelled from the spec: [clean_dataset] is imported from [utils] and
    defined nowhere in the application directory. The spec's cleaner
    returns the cleaned table and persists it to [output_path],
    overwriting any file there; nothing guards a failure, which
    propagates. Which table it returns is left to [clean_result]. *)
Definition clean_dataset (raw_data : DataFrame) (output_path : string)
  : M DataFrame :=
  cleaned ← lift (clean_result raw_data output_path);
  to_csv output_path cleaned;;
  mret cleaned.

(** Line 39: the path of the cleaned file of a dataset name. *)
Definition cleaned_file_name (name : string) : string :=
  replace_char " " "_" (lower name) +:+ "_cleaned.csv".

Definition cleaned_path (name : string) : string :=
  os_path_join CLEANED_FOLDER (cleaned_file_name name).

(** The body of the [for name, path in DATASETS.items()] loop, threaded
    through the two dictionaries it fills. *)
Fixpoint load_and_clean_loop (items : list (string * string))
    (cleaned_data uncleaned_data : gmap string DataFrame)
  : M (gmap string DataFrame * gmap string DataFrame) :=
  match items with
  | [] => mret (cleaned_data, uncleaned_data)
  | (name, path) :: rest =>
      raw_data ← load_data path;
      let uncleaned_data := <[name := raw_data]> uncleaned_data in
      cleaned ← clean_dataset raw_data (cleaned_path name);
      load_and_clean_loop rest (<[name := cleaned]> cleaned_data) uncleaned_data
  end.

Definition load_and_clean_all_datasets
  : M (gmap string DataFrame * gmap string DataFrame) :=
  load_and_clean_loop DATASETS ∅ ∅.

(** Line 49: [all_uncleaned_data.get(selected_dataset_name, pd.DataFrame())].
    Both dictionaries are in scope; only one is read. *)
Definition selected_dataset
    (all_cleaned_data all_uncleaned_data : gmap string DataFrame)
    (selected_dataset_name : string) : DataFrame :=
  default empty_frame (all_uncleaned_data !! selected_dataset_name).

(** A drawing helper called on a table. *)
Definition draw (h : helper) (d : DataFrame) : M unit :=
  log_call h d;;
  match draw_result h d with
  | None => show (st_pyplot h d)
  | Some e => lift (Raises e)
  end.

Definition detect_outliers_call (d : DataFrame) (cols : list string)
  : M (list nat) :=
  log_call DetectOutliers d;;
  lift (detect_result d cols).

(** [df.describe()] refuses a table without columns. *)
Definition describe (d : DataFrame) : M element :=
  match series d with
  | [] => lift (Raises (Exception "ValueError"
                          "Cannot describe a DataFrame without columns"))
  | _ => mret (st_write_describe d)
  end.

Definition nl : string := String (ascii_of_N 10) EmptyString.

Definition tab_overview (selected_dataset_name : string) : M unit :=
  show (st_header "Overview");;
  show (st_write (nl +:+ "    This dashboard provides a detailed analysis of the "
                  +:+ selected_dataset_name +:+ " dataset." +:+ nl
                  +:+ "    Navigate to different sections to explore data insights, trends, and advanced analysis."
                  +:+ nl +:+ "    ")).

Definition tab_eda (selected_dataset : DataFrame) : M unit :=
  show (st_header "Exploratory Data Analysis");;
  show (st_write "**Data Summary:**");;
  summary ← describe selected_dataset;
  show summary;;
  show (st_write "**Missing Values:**");;
  show (st_write_counts (isnull_sum selected_dataset));;
  show (st_write "**Duplicates:**");;
  show (st_write_number (duplicated_sum selected_dataset)).

Definition tab_visuals (selected_dataset : DataFrame) : M unit :=
  show (st_header "Data Visualizations");;
  show (st_subheader "Correlation Heatmap");;
  try_except (draw PlotCorrelationHeatmap selected_dataset)
    (λ e, show (st_error ("Error plotting correlation heatmap: " +:+ exc_text e)));;
  when (has_column selected_dataset "Timestamp")
    (show (st_subheader "Time Series Trends");;
     try_except (draw PlotTimeSeries selected_dataset)
       (λ e, show (st_error ("Error plotting time series trends: " +:+ exc_text e))));;
  when (forallb (has_column selected_dataset) ["WD"; "WS"])
    (show (st_subheader "Wind Rose");;
     try_except (draw PlotWindRose selected_dataset)
       (λ e, show (st_error ("Error plotting wind rose: " +:+ exc_text e))));;
  when (has_column selected_dataset "WD")
    (show (st_subheader "Wind Direction Distribution");;
     try_except (draw PlotWindDirectionDistribution selected_dataset)
       (λ e, show (st_error ("Error plotting wind direction distribution: "
                               +:+ exc_text e)))).

Definition outlier_columns : list string := ["GHI"; "DNI"; "DHI"].
Definition module_columns : list string := ["TModA"; "TModB"; "Tamb"].
Definition analysis_columns : list string :=
  ["GHI"; "DNI"; "DHI"; "Tamb"; "RH"; "WS"].

Definition available_columns (selected_dataset : DataFrame) : list string :=
  filter (λ col, has_column selected_dataset col = true) analysis_columns.

Definition tab_advanced (selected_dataset : DataFrame) : M unit :=
  show (st_header "Advanced Analysis");;
  show (st_subheader "Outlier Detection");;
  when (forallb (has_column selected_dataset) outlier_columns)
    (try_except
       (valid_data ← lift (getitem selected_dataset outlier_columns);
        outliers ← detect_outliers_call valid_data outlier_columns;
        show (st_write ("Number of outliers detected: "
                          +:+ pretty (length outliers)));;
        draw SnsBoxplot valid_data)
       (λ e, show (st_error ("Error detecting outliers: " +:+ exc_text e))));;
  when (forallb (has_column selected_dataset) ["Tamb"; "RH"])
    (show (st_subheader "Temperature vs. Relative Humidity");;
     try_except (draw PlotTemperatureVsHumidity selected_dataset)
       (λ e, show (st_error ("Error plotting temperature vs. humidity: "
                               +:+ exc_text e))));;
  when (forallb (has_column selected_dataset) module_columns)
    (show (st_subheader "Temperature Trends Across Modules");;
     try_except (draw PlotTemperatureTrends selected_dataset)
       (λ e, show (st_error ("Error plotting temperature trends: " +:+ exc_text e))));;
  when (bool_decide (available_columns selected_dataset ≠ []))
    (show (st_subheader "Pair Plot of Key Variables");;
     try_except (draw PlotPairPlot selected_dataset)
       (λ e, show (st_error ("Error plotting pair plot: " +:+ exc_text e)))).

(** Lines 47 to 154 for the name the sidebar returns and the table of
    line 49; they read nothing else. *)
Definition render (selected_dataset_name : string) (selected : DataFrame)
  : M unit :=
  show (st_sidebar_selectbox "Select Dataset" (DATASETS.*1));;
  show (st_title ("Solar Farm Data Analysis Dashboard for "
                    +:+ selected_dataset_name));;
  show (st_tabs ["Overview"; "EDA"; "Visualizations"; "Advanced Analysis"]);;
  tab_overview selected_dataset_name;;
  tab_eda selected;;
  tab_visuals selected;;
  tab_advanced selected.

(** Lines 47 to 154 for the dictionaries of line 44 and the name the
    sidebar returns. *)
Definition page (all_cleaned_data all_uncleaned_data : gmap string DataFrame)
    (selected_dataset_name : string) : M unit :=
  render selected_dataset_name
    (selected_dataset all_cleaned_data all_uncleaned_data selected_dataset_name).

(** One run of the script with a cold cache. *)
Definition run (selected_dataset_name : string) : M unit :=
  '(all_cleaned_data, all_uncleaned_data) ← load_and_clean_all_datasets;
  page all_cleaned_data all_uncleaned_data selected_dataset_name.

(** *** The analysis steps as a table

    The eight guarded blocks of the two chart tabs, read off the script:
    what each requires of the selected table, what it calls, and what it
    shows. *)

Inductive step :=
  | CorrelationHeatmap
  | TimeSeriesTrends
  | WindRose
  | WindDirectionDistribution
  | OutlierDetection
  | TemperatureVsHumidity
  | TemperatureTrends
  | PairPlot.

Definition visual_steps : list step :=
  [CorrelationHeatmap; TimeSeriesTrends; WindRose; WindDirectionDistribution].

Definition advanced_steps : list step :=
  [OutlierDetection; TemperatureVsHumidity; TemperatureTrends; PairPlot].

Definition steps : list step := visual_steps ++ advanced_steps.

(** The columns a step asks for: all of a list, or at least one. *)
Inductive requirement :=
  | AllOf (cols : list string)
  | AnyOf (cols : list string).

Definition required (s : step) : requirement :=
  match s with
  | CorrelationHeatmap => AllOf []
  | TimeSeriesTrends => AllOf ["Timestamp"]
  | WindRose => AllOf ["WD"; "WS"]
  | WindDirectionDistribution => AllOf ["WD"]
  | OutlierDetection => AllOf outlier_columns
  | TemperatureVsHumidity => AllOf ["Tamb"; "RH"]
  | TemperatureTrends => AllOf module_columns
  | PairPlot => AnyOf analysis_columns
  end.

Definition satisfied (r : requirement) (d : DataFrame) : bool :=
  match r with
  | AllOf cols => forallb (has_column d) cols
  | AnyOf cols => existsb (has_column d) cols
  end.

Definition runs (s : step) (d : DataFrame) : bool := satisfied (required s) d.

(** The subheader of a step. *)
Definition heading (s : step) : string :=
  match s with
  | CorrelationHeatmap => "Correlation Heatmap"
  | TimeSeriesTrends => "Time Series Trends"
  | WindRose => "Wind Rose"
  | WindDirectionDistribution => "Wind Direction Distribution"
  | OutlierDetection => "Outlier Detection"
  | TemperatureVsHumidity => "Temperature vs. Relative Humidity"
  | TemperatureTrends => "Temperature Trends Across Modules"
  | PairPlot => "Pair Plot of Key Variables"
  end.

(** How the error message of a step starts. *)
Definition label (s : step) : string :=
  match s with
  | CorrelationHeatmap => "Error plotting correlation heatmap"
  | TimeSeriesTrends => "Error plotting time series trends"
  | WindRose => "Error plotting wind rose"
  | WindDirectionDistribution => "Error plotting wind direction distribution"
  | OutlierDetection => "Error detecting outliers"
  | TemperatureVsHumidity => "Error plotting temperature vs. humidity"
  | TemperatureTrends => "Error plotting temperature trends"
  | PairPlot => "Error plotting pair plot"
  end.

(** The first helper a step calls, and the one that draws its chart. *)
Definition entry (s : step) : helper :=
  match s with
  | CorrelationHeatmap => PlotCorrelationHeatmap
  | TimeSeriesTrends => PlotTimeSeries
  | WindRose => PlotWindRose
  | WindDirectionDistribution => PlotWindDirectionDistribution
  | OutlierDetection => DetectOutliers
  | TemperatureVsHumidity => PlotTemperatureVsHumidity
  | TemperatureTrends => PlotTemperatureTrends
  | PairPlot => PlotPairPlot
  end.

Definition renderer (s : step) : helper :=
  match s with
  | OutlierDetection => SnsBoxplot
  | _ => entry s
  end.

(** The table a step hands to its helpers: the selected one, or its three
    irradiance columns for the outlier step. *)
Definition input (s : step) (d : DataFrame) : DataFrame :=
  match s with
  | OutlierDetection =>
      match getitem d outlier_columns with
      | Returns valid_data => valid_data
      | Raises _ => d
      end
  | _ => d
  end.

(** What is raised inside the [try] of a step that runs, if anything. *)
Definition failure (s : step) (d : DataFrame) : option exn :=
  match s with
  | OutlierDetection =>
      match getitem d outlier_columns with
      | Raises e => Some e
      | Returns valid_data =>
          match detect_result valid_data outlier_columns with
          | Raises e => Some e
          | Returns _ => draw_result SnsBoxplot valid_data
          end
      end
  | _ => draw_result (entry s) d
  end.

Definition step_error (s : step) (e : exn) : element :=
  st_error (label s +:+ ": " +:+ exc_text e).

(** The helper calls of a step that runs. *)
Definition body_calls (s : step) (d : DataFrame) : list (helper * DataFrame) :=
  match s with
  | OutlierDetection =>
      match getitem d outlier_columns with
      | Raises _ => []
      | Returns valid_data =>
          (DetectOutliers, valid_data) ::
          match detect_result valid_data outlier_columns with
          | Raises _ => []
          | Returns _ => [(SnsBoxplot, valid_data)]
          end
      end
  | _ => [(entry s, d)]
  end.

(** What a step that runs shows below its subheader. *)
Definition body_ui (s : step) (d : DataFrame) : list element :=
  let drawn (h : helper) (t : DataFrame) :=
    match draw_result h t with
    | None => [st_pyplot h t]
    | Some e => [step_error s e]
    end in
  match s with
  | OutlierDetection =>
      match getitem d outlier_columns with
      | Raises e => [step_error s e]
      | Returns valid_data =>
          match detect_result valid_data outlier_columns with
          | Raises e => [step_error s e]
          | Returns outliers =>
              st_write ("Number of outliers detected: "
                          +:+ pretty (length outliers))
              :: drawn SnsBoxplot valid_data
          end
      end
  | _ => drawn (entry s) d
  end.

Definition panel_calls (d : DataFrame) (s : step) : list (helper * DataFrame) :=
  if runs s d then body_calls s d else [].

(** The subheader of the outlier step is shown before its guard. *)
Definition panel_ui (d : DataFrame) (s : step) : list element :=
  match s with
  | OutlierDetection =>
      st_subheader (heading s) :: (if runs s d then body_ui s d else [])
  | _ => if runs s d then st_subheader (heading s) :: body_ui s d else []
  end.

(** The world after more elements and more calls. *)
Definition extend (w : World) (es : list element)
    (cs : list (helper * DataFrame)) : World :=
  mkWorld (ui w ++ es) (disk w) (calls w ++ cs).

(** A computation that always returns, and whose whole effect is to add
    elements to the page and entries to the call log. *)
Definition emits (m : M unit) (es : list element)
    (cs : list (helper * DataFrame)) : Prop :=
  ∀ w, m w = (Returns tt, extend w es cs).

(** A step left no trace in what a run added: none of its helpers was
    called and no error element starts with its label. *)
Definition skipped (s : step) (es : list element)
    (cs : list (helper * DataFrame)) : Prop :=
  (entry s ∉ cs.*1) ∧ (renderer s ∉ cs.*1) ∧
  ∀ t, st_error (label s +:+ t) ∉ es.

(** The table the loader hands on for a path. *)
Definition raw (path : string) : DataFrame :=
  match read_csv path with
  | Returns table => table
  | Raises _ => empty_frame
  end.

End script.
End main.

(** ** [app/utils.py] *)

Module utils.

(** What the extraction utility acts on: the files by path, and the lines
    printed so far. *)
Record Machine := mkMachine {
  fs : gmap string string;
  stdout : list string
}.

(** The parts of [zipfile] and of the operating system that the utility
    relies on. *)
Class ZipLibrary := {
  (** the members (name, content) of a well-formed archive; [None] when
      the bytes are not a zip archive *)
  decode_zip : string → option (list (string * string));
  (** where [extractall] places a member below the destination *)
  member_target : string → string → string;
  (** the error of writing at a path, if writing there fails *)
  write_error : string → option exn;
  (** what a failing write of a content at a target leaves there, given
      what was there before ([None]: no file): the file as it was when the
      target could not be opened, an empty or partial file when the copy
      broke off *)
  failed_write : string → string → option string → option string
}.

Section extraction.
Context `{ZipLibrary}.

(** An open [ZipFile]: the members read from the archive. *)
Definition ZipFile_open (path : string) : ST Machine (list (string * string)) :=
  λ m,
  match fs m !! path with
  | None =>
      (Raises (Exception "FileNotFoundError"
                 ("[Errno 2] No such file or directory: '" +:+ path +:+ "'")), m)
  | Some bytes =>
      match decode_zip bytes with
      | None => (Raises (Exception "BadZipFile" "File is not a zip file"), m)
      | Some members => (Returns members, m)
      end
  end.

(** Writing one member: [zipfile] opens the target and copies into it,
    so a write that fails may have created, emptied or partly filled the
    target. *)
Definition write_file (target content : string) : ST Machine unit := λ m,
  match write_error target with
  | Some e =>
      (Raises e,
       mkMachine (partial_alter (failed_write target content) target (fs m))
         (stdout m))
  | None => (Returns tt, mkMachine (<[target := content]> (fs m)) (stdout m))
  end.

(** [zip.extractall(path)]: the members one after the other; the first
    failure stops the extraction where it is. *)
Fixpoint extractall (members : list (string * string)) (path : string)
  : ST Machine unit :=
  match members with
  | [] => mret tt
  | (name, content) :: rest =>
      write_file (member_target path name) content;;
      extractall rest path
  end.

Definition print (line : string) : ST Machine unit := λ m,
  (Returns tt, mkMachine (fs m) (stdout m ++ [line])).

(** The [with] block has no handler: leaving it closes the archive and
    lets an exception through. *)
Definition extract_datasets (input_data_path output_data_path : string)
  : ST Machine unit :=
  zip ← ZipFile_open input_data_path;
  extractall zip output_data_path;;
  print ("Extracted " +:+ input_data_path +:+ " to " +:+ output_data_path).

(** The files after every member of a list has been written below
    [path]; of two members with one target the later remains. *)
Definition extracted (members : list (string * string)) (path : string)
    (files : gmap string string) : gmap string string :=
  foldl (λ f (member : string * string),
           <[member_target path member.1 := member.2]> f)
    files members.

(** The files when the write of a member broke off after the members of
    [before] had been written. *)
Definition interrupted (before : list (string * string))
    (name content path : string) (files : gmap string string)
  : gmap string string :=
  partial_alter (failed_write (member_target path name) content)
    (member_target path name) (extracted before path files).

(** The member can be written below [path]. *)
Definition writable (path : string) (member : string * string) : Prop :=
  write_error (member_target path member.1) = None.

End extraction.
End utils.

(** ** The cleaner, from its contract *)

Module cleaner.

(** Modelled from the spec: [clean_dataset] is imported by the page and
    defined nowhere in the application directory. Its contract leaves the
    treatment of missing values to a choice between dropping and
    imputing: rows with a missing cell are dropped, or every missing cell
    of a column is replaced by a value computed from the cells that are
    there. *)
Inductive strategy :=
  | DropRows
  | Impute (fill : list value → value).

(** Modelled from the spec: what the contract of [clean_dataset] leaves
    open, namely how a timestamp and a number are read from text, which
    columns are numeric, and the strategy for missing values. *)
Class Policy := {
  parse_timestamp : string → option Z;
  parse_number : string → option Qc;
  is_numeric_column : string → bool;
  missing_strategy : strategy
}.

Section rules.
Context `{Policy}.

Definition normalize_cell (c : cell) : cell :=
  match c with
  | Some (Text s) => Stamp <$> parse_timestamp s
  | _ => c
  end.

(** Modelled from the spec: first responsibility of [clean_dataset],
    parse the timestamp column if present; text that is no timestamp
    becomes missing. *)
Definition normalize_timestamp (d : DataFrame) : DataFrame :=
  mkFrame (nrows d)
    ((λ s : string * list cell,
        if decide (s.1 = "Timestamp") then (s.1, normalize_cell <$> s.2) else s)
       <$> series d).

Definition coerce_cell (c : cell) : cell :=
  match c with
  | Some (Text s) => Num <$> parse_number s
  | Some (Stamp t) => Some (Num (Qc_of_Z t))
  | _ => c
  end.

(** Modelled from the spec: third responsibility of [clean_dataset],
    bring the numeric columns to one numeric type; text that is no number
    becomes missing. *)
Definition coerce_numeric (d : DataFrame) : DataFrame :=
  mkFrame (nrows d)
    ((λ s : string * list cell,
        if is_numeric_column s.1 then (s.1, coerce_cell <$> s.2) else s)
       <$> series d).

(** Row [i] has a defined cell in every column. *)
Definition complete_row (d : DataFrame) (i : nat) : bool :=
  forallb (λ s : string * list cell, bool_decide (is_Some (mjoin (s.2 !! i))))
    (series d).

Definition complete_rows (d : DataFrame) : list nat :=
  filter (λ i, complete_row d i = true) (seq 0 (nrows d)).

Definition dropna (d : DataFrame) : DataFrame :=
  let keep := complete_rows d in
  mkFrame (length keep)
    ((λ s : string * list cell, (s.1, (λ i, mjoin (s.2 !! i)) <$> keep))
       <$> series d).

(** The defined cells of a column. *)
Definition present (xs : list cell) : list value := omap id xs.

Definition fillna (fill : list value → value) (d : DataFrame) : DataFrame :=
  mkFrame (nrows d)
    ((λ s : string * list cell,
        (s.1, (λ c : cell, Some (default (fill (present s.2)) c)) <$> s.2))
       <$> series d).

(** Modelled from the spec: second responsibility of [clean_dataset],
    handle the missing values by the chosen strategy. *)
Definition handle_missing (d : DataFrame) : DataFrame :=
  match missing_strategy with
  | DropRows => dropna d
  | Impute fill => fillna fill d
  end.

(** Modelled from the spec: the table [clean_dataset] returns. Parsing
    and coercion come first, so that the cells they invalidate are
    handled as missing values like the others. *)
Definition clean_table (d : DataFrame) : DataFrame :=
  handle_missing (coerce_numeric (normalize_timestamp d)).

(** Modelled from the spec: the cleaner as the page's collaborator; with
    it [main.clean_dataset] returns [clean_table raw] and writes it to the
    output path. *)
Definition spec_cleaner : Cleaner :=
  {| clean_result := λ raw _, Returns (clean_table raw) |}.

End rules.
End cleaner.

(** ** The outlier detector, from its contract *)

Module outliers.

Local Open Scope Qc_scope.

(** The numbers of a column; missing cells and text carry no score. *)
Definition numbers (xs : list cell) : list Qc :=
  omap (λ c : cell, match c with Some (Num q) => Some q | _ => None end) xs.

Definition total (xs : list Qc) : Qc := foldr Qcplus 0 xs.

Definition count (xs : list Qc) : Qc := Qc_of_Z (Z.of_nat (length xs)).

Definition mean (xs : list Qc) : Qc := total xs / count xs.

Definition sq (x : Qc) : Qc := x * x.

(** The population variance, the square of the standard deviation. *)
Definition variance (xs : list Qc) : Qc :=
  total ((λ x, sq (x - mean xs)) <$> xs) / count xs.

(** A column whose numbers are all equal. *)
Definition constant (xs : list cell) : Prop :=
  ∃ c, Forall (λ x, x = c) (numbers xs).

Section detector.
(** The fixed threshold on the magnitude of the score. *)
Variable threshold : Qc.

(** Modelled from the spec: the score of the detector that the page
    imports and the application directory does not define. It is the
    standardized deviation from the column mean, kept as its square
    [(x - mean)^2 / variance] so that no square root is taken, and it is
    undefined on a column without variance. *)
Definition score_sq (column : list Qc) (x : Qc) : option Qc :=
  if decide (variance column = 0) then None
  else Some (sq (x - mean column) / variance column).

(** The magnitude of the score exceeds the threshold; an undefined score
    never does. *)
Definition exceeds (column : list cell) (c : cell) : bool :=
  match c with
  | Some (Num x) =>
      match score_sq (numbers column) x with
      | Some s => bool_decide (sq threshold < s)
      | None => false
      end
  | _ => false
  end.

(** Row [i] is flagged on column [col]. *)
Definition flagged_on (d : DataFrame) (i : nat) (col : string) : bool :=
  match get_series (series d) col with
  | Some xs => exceeds xs (mjoin (xs !! i))
  | None => false
  end.

(** Modelled from the spec: [detect_outliers(table, columns)], flagging a
    row when any of the selected columns flags it and returning the
    flagged rows by their position; a column that the table lacks is a
    [KeyError], as for any selection of columns. *)
Definition detect_outliers (d : DataFrame) (cols : list string)
  : outcome (list nat) :=
  match getitem d cols with
  | Raises e => Raises e
  | Returns _ =>
      Returns (filter (λ i, existsb (flagged_on d i) cols = true)
                 (seq 0 (nrows d)))
  end.

(** Modelled from the spec: the detector as the page's collaborator. *)
Definition spec_detector : Detector :=
  {| detect_result := detect_outliers |}.

End detector.
End outliers.

(** ** Notions for describing whole runs *)

Module observed.
Import main.
Section of_the_script.
Context `{FileReader, Cleaner, Detector, Drawing}.

(** What the loader shows for a path: nothing, or its one error element. *)
Definition load_error (path : string) : list element :=
  match read_csv path with
  | Returns _ => []
  | Raises e =>
      [st_error ("Failed to load data from " +:+ path +:+ ": " +:+ exc_text e)]
  end.

Definition load_errors (items : list (string * string)) : list element :=
  flat_map (λ i : string * string, load_error i.2) items.

(** Cleaning the raw table of an item returns. *)
Definition cleans (i : string * string) : Prop :=
  ∃ t, clean_result (raw i.2) (cleaned_path i.1) = Returns t.

(** The table that cleaning an item returns. *)
Definition cleaned_table (i : string * string) : DataFrame :=
  match clean_result (raw i.2) (cleaned_path i.1) with
  | Returns t => t
  | Raises _ => empty_frame
  end.

(** The two dictionaries and the disk after the items of a list went
    through the loop. *)
Definition raw_tables (items : list (string * string))
    (start : gmap string DataFrame) : gmap string DataFrame :=
  foldl (λ m (i : string * string), <[i.1 := raw i.2]> m) start items.

Definition cleaned_tables (items : list (string * string))
    (start : gmap string DataFrame) : gmap string DataFrame :=
  foldl (λ m (i : string * string), <[i.1 := cleaned_table i]> m) start items.

Definition written (items : list (string * string))
    (files : gmap string DataFrame) : gmap string DataFrame :=
  foldl (λ m (i : string * string), <[cleaned_path i.1 := cleaned_table i]> m)
    files items.

(** The chart tabs, lines 76 to 154. *)
Definition chart_tabs (d : DataFrame) : M unit :=
  tab_visuals d ;; tab_advanced d.

(** The helpers in the order in which the script reaches them. *)
Definition helper_order : list helper :=
  [ PlotCorrelationHeatmap; PlotTimeSeries; PlotWindRose;
    PlotWindDirectionDistribution; DetectOutliers; SnsBoxplot;
    PlotTemperatureVsHumidity; PlotTemperatureTrends; PlotPairPlot ].

(** The helpers of a step, in the order in which its block calls them. *)
Definition segment (s : step) : list helper :=
  match s with
  | OutlierDetection => [DetectOutliers; SnsBoxplot]
  | _ => [entry s]
  end.

(** The counting line of the outlier step. *)
Definition outlier_count (n : nat) : element :=
  st_write ("Number of outliers detected: " +:+ pretty n).

Definition is_error (x : element) : bool :=
  match x with
  | st_error _ => true
  | _ => false
  end.

(** The step runs on the table and something is raised inside its [try]. *)
Definition fails (d : DataFrame) (s : step) : bool :=
  runs s d && bool_decide (is_Some (failure s d)).

End of_the_script.

(** An ASCII capital letter. *)
Definition is_upper (c : ascii) : bool :=
  ((65 <=? N_of_ascii c) && (N_of_ascii c <=? 90))%N.

(** A string of ASCII characters. *)
Definition is_ascii (s : string) : Prop :=
  Forall (λ c, (N_of_ascii c <? 128)%N = true) (list_ascii_of_string s).

(** Written from the words of the spec, for comparison with line 39: the
    capital letters and their lowercase letters, by the alphabet. *)
Definition alphabet : list (ascii * ascii) :=
  zip (list_ascii_of_string "ABCDEFGHIJKLMNOPQRSTUVWXYZ")
      (list_ascii_of_string "abcdefghijklmnopqrstuvwxyz").

Definition lowercased (c : ascii) : ascii :=
  match List.find (λ p : ascii * ascii, bool_decide (p.1 = c)) alphabet with
  | Some p => p.2
  | None => c
  end.

Definition space_to_underscore (c : ascii) : ascii :=
  if decide (c = " "%char) then "_"%char else c.

(** Written from the words of the spec: the cleaned file of a dataset
    name lies in the configured output directory and is called
    [<lowercased, space-to-underscore name>_cleaned.csv]. *)
Definition claimed_path (name : string) : string :=
  "data/cleaned_datasets/"
  +:+ str_map space_to_underscore (str_map lowercased name)
  +:+ "_cleaned.csv".

(** What line 39 does to one character of a dataset name. *)
Definition tidy (c : ascii) : ascii :=
  if decide (lower_char c = " "%char) then "_"%char else lower_char c.

Section of_the_extraction.
Context `{utils.ZipLibrary}.

(** Where the members of a list land below [path]. *)
Definition targets (members : list (string * string)) (path : string)
  : list string :=
  (λ member : string * string, utils.member_target path member.1) <$> members.

(** The line the utility prints when it is done. *)
Definition completion_line (input_data_path output_data_path : string)
  : string :=
  "Extracted " +:+ input_data_path +:+ " to " +:+ output_data_path.

End of_the_extraction.
End observed.

(** ** Sample inputs for the closed examples *)

Module samples.

Definition nums (zs : list Z) : list cell :=
  (λ z, Some (Num (Qc_of_Z z))) <$> zs.

(** Six readings; one irradiance value stands out, one column is
    constant, one wind speed is missing. *)
Definition readings : DataFrame :=
  mkFrame 6
    [ ("Timestamp", (λ s, Some (Text s)) <$>
                      ["00:01"; "00:02"; "00:03"; "00:04"; "00:05"; "00:06"]);
      ("GHI", nums [1; 1; 1; 1; 1; 7]);
      ("DNI", nums [3; 3; 3; 3; 3; 3]);
      ("DHI", nums [0; 1; 0; 1; 0; 1]);
      ("WD", nums [10; 20; 30; 40; 50; 60]);
      ("WS", [Some (Num (Qc_of_Z 2)); None] ++ nums [2; 4; 2; 4]) ]%Z.

(** The same readings without their timestamps. *)
Definition untimed : DataFrame := mkFrame 6 (tail (series readings)).

Definition benin : string := "data/original_datasets/benin-malanville.csv".

(** Only the Benin file is there. *)
Definition reader : FileReader :=
  {| read_csv := λ path,
       if decide (path = benin) then Returns readings
       else Raises (Exception "FileNotFoundError"
                      ("[Errno 2] No such file or directory: '" +:+ path +:+ "'")) |}.

Definition policy : cleaner.Policy :=
  {| cleaner.parse_timestamp := λ s, Some (Z.of_nat (String.length s));
     cleaner.parse_number := λ _, None;
     cleaner.is_numeric_column := λ col, bool_decide (col ≠ "Timestamp");
     cleaner.missing_strategy := cleaner.DropRows |}.

Definition cleaning : Cleaner := @cleaner.spec_cleaner policy.

Definition detector : Detector := outliers.spec_detector (Qc_of_Z 2).

(** Every helper draws, except the time-series helper. *)
Definition drawing : Drawing :=
  {| draw_result := λ h _,
       match h with
       | PlotTimeSeries => Some (Exception "ValueError" "bad timestamps")
       | _ => None
       end |}.

(** A cleaner that hands the table back, but cannot write the cleaned
    file of the second dataset. *)
Definition failing_cleaning : Cleaner :=
  {| clean_result := λ raw_data path,
       if decide (path = "data/cleaned_datasets/sierra_leone_bumbuna_cleaned.csv")
       then Raises (Exception "PermissionError" "[Errno 13] Permission denied")
       else Returns raw_data |}.

Definition blank : World := mkWorld [] ∅ [].

(** An archive of two members next to a file that is no archive. *)
Definition zip_library : utils.ZipLibrary :=
  {| utils.decode_zip := λ bytes,
       if decide (bytes = "PK") then Some [("a.csv", "1,2"); ("b.csv", "3,4")]
       else None;
     utils.member_target := λ path name, os_path_join path name;
     utils.write_error := λ _, None;
     utils.failed_write := λ _ _ previous, previous |}.

(** The same library on a disk that fills up while the second member is
    copied; an empty file stays at its target. *)
Definition full_disk_library : utils.ZipLibrary :=
  {| utils.decode_zip := λ bytes,
       if decide (bytes = "PK") then Some [("a.csv", "1,2"); ("b.csv", "3,4")]
       else None;
     utils.member_target := λ path name, os_path_join path name;
     utils.write_error := λ target,
       if decide (target = "out/b.csv")
       then Some (Exception "OSError" "[Errno 28] No space left on device")
       else None;
     utils.failed_write := λ _ _ _, Some EmptyString |}.

Definition machine : utils.Machine :=
  utils.mkMachine {[ "data.zip" := "PK"; "notes.txt" := "hello" ]} [].

End samples.

(* ===================================================================== *)
(** * Part II: theorems                                                   *)
(* ===================================================================== *)

Import main.

(** ** The loader *)

Section loader.
Context `{FileReader}.

(** C1: for every path, [load_data] returns and never raises. When
    reading succeeds it hands on the table read and shows nothing. When
    reading fails, whatever the exception, it returns the empty table,
    whose shape is 0 rows by 0 columns, after showing one error element
    that names the path and carries the text of the exception; the
    caller goes on with that table. Files written and the call log are
    untouched either way. *)
Theorem load_data_never_raises (data_path : string) (w : World) :
  ∃ table w',
    load_data data_path w = (Returns table, w') ∧
    disk w' = disk w ∧ calls w' = calls w ∧
    match read_csv data_path with
    | Returns read => table = read ∧ ui w' = ui w
    | Raises e =>
        table = empty_frame ∧ shape table = (0, 0) ∧
        ui w' = ui w ++ [st_error ("Failed to load data from " +:+ data_path
                                     +:+ ": " +:+ exc_text e)]
    end.
Proof.
  unfold load_data, try_except, lift.
  destruct (read_csv data_path) as [read|e]; simpl.
  - exists read, w. by destruct w.
  - eexists _, _. repeat split; reflexivity.
Qed.

End loader.

(** ** The chart tabs *)

Section tabs.
Context `{Detector, Drawing}.

Lemma extend_extend w es1 cs1 es2 cs2 :
  extend (extend w es1 cs1) es2 cs2 = extend w (es1 ++ es2) (cs1 ++ cs2).
Proof. unfold extend; simpl. by rewrite !app_assoc. Qed.

Lemma extend_nil w : extend w [] [] = w.
Proof. destruct w; unfold extend; simpl. by rewrite !app_nil_r. Qed.

Lemma emits_eq m es cs es' cs' :
  emits m es cs → es = es' → cs = cs' → emits m es' cs'.
Proof. by intros ? <- <-. Qed.

Lemma emits_ret : emits (mret tt) [] [].
Proof. intros w. by rewrite extend_nil. Qed.

Lemma emits_show e : emits (show e) [e] [].
Proof. intros w. unfold show, extend. by rewrite app_nil_r. Qed.

Lemma emits_seq m1 m2 es1 cs1 es2 cs2 :
  emits m1 es1 cs1 → emits m2 es2 cs2 →
  emits (m1 ;; m2) (es1 ++ es2) (cs1 ++ cs2).
Proof.
  intros H1 H2 w. unfold mbind, ST_bind.
  by rewrite H1, H2, extend_extend.
Qed.

Lemma emits_when (b : bool) m es cs :
  emits m es cs →
  emits (when b m) (if b then es else []) (if b then cs else []).
Proof. destruct b; [done | intros _; apply emits_ret]. Qed.

(** One guarded drawing: the helper is called, and either its figure or
    the error of the step is shown; nothing is raised. *)
Lemma emits_try_draw h d msg :
  emits (try_except (draw h d) (λ e, show (st_error (msg +:+ exc_text e))))
    (match draw_result h d with
     | None => [st_pyplot h d]
     | Some e => [st_error (msg +:+ exc_text e)]
     end)
    [(h, d)].
Proof.
  intros w. unfold try_except, draw, log_call, lift, show, mbind, ST_bind, extend.
  destruct (draw_result h d); simpl; by rewrite ?app_nil_r.
Qed.

(** The try block of the outlier step. *)
Lemma emits_try_outliers d :
  emits
    (try_except
       (valid_data ← lift (getitem d outlier_columns);
        outliers ← detect_outliers_call valid_data outlier_columns;
        show (st_write ("Number of outliers detected: "
                          +:+ pretty (length outliers)));;
        draw SnsBoxplot valid_data)
       (λ e, show (st_error ("Error detecting outliers: " +:+ exc_text e))))
    (body_ui OutlierDetection d) (body_calls OutlierDetection d).
Proof.
  intros w.
  unfold try_except, detect_outliers_call, draw, log_call, lift, show,
    mbind, ST_bind, extend, body_ui, body_calls, step_error.
  destruct (getitem d outlier_columns) as [valid_data|e]; simpl;
    [| by rewrite ?app_nil_r].
  destruct (detect_result valid_data outlier_columns) as [rows|e]; simpl;
    [| by rewrite ?app_nil_r].
  destruct (draw_result SnsBoxplot valid_data); simpl;
    by rewrite <- ?app_assoc.
Qed.

Lemma filter_nonempty_existsb {A} (f : A → bool) (l : list A) :
  bool_decide (filter (λ x, f x = true) l ≠ []) = existsb f l.
Proof.
  induction l as [|x l IH]; [done |].
  rewrite filter_cons. simpl. destruct (f x) eqn:Hx.
  - rewrite decide_True by done. by apply bool_decide_eq_true_2.
  - rewrite decide_False by (by intros ?). apply IH.
Qed.

Lemma available_columns_nonempty d :
  bool_decide (available_columns d ≠ []) = existsb (has_column d) analysis_columns.
Proof. apply filter_nonempty_existsb. Qed.

Lemma tab_visuals_emits d :
  emits (tab_visuals d)
    (st_header "Data Visualizations" :: flat_map (panel_ui d) visual_steps)
    (flat_map (panel_calls d) visual_steps).
Proof.
  unfold tab_visuals.
  eapply emits_eq.
  - repeat first
      [ apply emits_seq | apply emits_when | apply emits_show
      | apply emits_try_draw ].
  - unfold panel_ui, runs, body_ui, step_error; simpl.
    rewrite !andb_true_r.
    repeat match goal with |- context [has_column d ?c] =>
      destruct (has_column d c) end; simpl;
    repeat match goal with |- context [draw_result ?h d] =>
      destruct (draw_result h d) end; reflexivity.
  - unfold panel_calls, runs, body_calls; simpl.
    rewrite !andb_true_r.
    repeat match goal with |- context [has_column d ?c] =>
      destruct (has_column d c) end; reflexivity.
Qed.

Lemma tab_advanced_emits d :
  emits (tab_advanced d)
    (st_header "Advanced Analysis" :: flat_map (panel_ui d) advanced_steps)
    (flat_map (panel_calls d) advanced_steps).
Proof.
  unfold tab_advanced. rewrite available_columns_nonempty.
  eapply emits_eq.
  - repeat first
      [ apply emits_seq | apply emits_when | apply emits_show
      | apply emits_try_outliers | apply emits_try_draw ].
  - unfold advanced_steps, panel_ui, runs.
    cbn -[forallb existsb body_ui].
    generalize (body_ui OutlierDetection d). intros outlier_ui.
    unfold body_ui, step_error.
    cbn -[forallb existsb].
    repeat match goal with |- context [if ?g then _ else _] =>
      destruct g end;
    repeat match goal with |- context [draw_result ?h d] =>
      destruct (draw_result h d) end;
    by rewrite <- ?app_assoc, ?app_nil_r.
  - unfold advanced_steps, panel_calls, runs.
    cbn -[forallb existsb body_calls].
    generalize (body_calls OutlierDetection d). intros outlier_calls.
    unfold body_calls.
    cbn -[forallb existsb].
    repeat match goal with |- context [if ?g then _ else _] =>
      destruct g end;
    by rewrite <- ?app_assoc, ?app_nil_r.
Qed.

(** The two chart tabs one after the other, as lines 76 to 154 run them. *)
Lemma chart_tabs_emit d :
  emits (tab_visuals d ;; tab_advanced d)
    ((st_header "Data Visualizations" :: flat_map (panel_ui d) visual_steps)
       ++ st_header "Advanced Analysis" :: flat_map (panel_ui d) advanced_steps)
    (flat_map (panel_calls d) steps).
Proof.
  eapply emits_eq.
  - apply emits_seq; [apply tab_visuals_emits | apply tab_advanced_emits].
  - done.
  - unfold steps. by rewrite flat_map_app.
Qed.

Lemma elem_of_flat_map {A B} (f : A → list B) (l : list A) (y : B) :
  y ∈ flat_map f l ↔ ∃ x, x ∈ l ∧ y ∈ f x.
Proof.
  induction l as [|x l IH]; simpl.
  - split; [by intros ?%elem_of_nil | by intros (? & ?%elem_of_nil & _)].
  - rewrite elem_of_app, IH. split.
    + intros [? | (x' & ? & ?)]; [exists x | exists x'];
        by rewrite elem_of_cons; auto.
    + intros (x' & [-> | ?]%elem_of_cons & ?); [by left | right; by exists x'].
Qed.

Lemma every_step (s : step) : s ∈ steps.
Proof. apply list_elem_of_In. destruct s; simpl; tauto. Qed.

Lemma get_series_is_Some (ss : list (string * list cell)) (col : string) :
  col ∈ ss.*1 → is_Some (get_series ss col).
Proof.
  induction ss as [|[n xs] ss IH]; simpl; [by intros ?%elem_of_nil |].
  intros Hin. case_decide; [by eexists |].
  apply IH. apply elem_of_cons in Hin as [?|?]; [congruence | done].
Qed.

(** Selecting columns that the table has does not raise. *)
Lemma getitem_returns (d : DataFrame) (cols : list string) :
  forallb (has_column d) cols = true → ∃ t, getitem d cols = Returns t.
Proof.
  unfold getitem. intros Hall.
  assert (∃ ss, select_series (series d) cols = Returns ss) as [ss ->];
    [| by eexists].
  induction cols as [|c cols IH]; simpl in *; [by eexists |].
  apply andb_prop in Hall as [Hc Hall].
  apply bool_decide_eq_true_1, get_series_is_Some in Hc as [xs ->].
  destruct (IH Hall) as [ss ->]. by eexists.
Qed.

Lemma entry_called (s : step) (d : DataFrame) :
  runs s d = true → (entry s, input s d) ∈ body_calls s d.
Proof.
  destruct s; unfold runs, required, satisfied, input, body_calls, entry;
    try (intros _; apply list_elem_of_here).
  intros Hruns.
  destruct (getitem_returns d outlier_columns Hruns) as [t Ht].
  rewrite Ht. apply list_elem_of_here.
Qed.

Lemma body_calls_of_step (s : step) (d : DataFrame) (h : helper) :
  h ∈ (body_calls s d).*1 → h = entry s ∨ h = renderer s.
Proof.
  destruct s; unfold body_calls, renderer, entry;
    try (intros ->%list_elem_of_singleton; by left).
  destruct (getitem d outlier_columns) as [t|];
    [| by intros ?%elem_of_nil].
  destruct (detect_result t outlier_columns); cbn;
    rewrite ?elem_of_cons, ?elem_of_nil; tauto.
Qed.

Lemma entry_of_one_step (s s' : step) :
  entry s = entry s' ∨ entry s = renderer s' → s = s'.
Proof. destruct s, s'; simpl; by intros [?|?]. Qed.

(** A step is attempted exactly when the table satisfies its
    requirement. *)
Lemma entry_in_call_log (d : DataFrame) (s : step) :
  entry s ∈ (flat_map (panel_calls d) steps).*1 ↔ runs s d = true.
Proof.
  rewrite list_elem_of_fmap. split.
  - intros ([h t] & Hh & (s' & _ & Hin)%elem_of_flat_map). simpl in Hh.
    unfold panel_calls in Hin. destruct (runs s' d) eqn:Hruns;
      [| by apply elem_of_nil in Hin].
    assert (entry s ∈ (body_calls s' d).*1) as Hs'
      by (apply list_elem_of_fmap; by exists (h, t)).
    apply body_calls_of_step, entry_of_one_step in Hs'. by subst s'.
  - intros Hruns. exists (entry s, input s d). split; [done |].
    apply elem_of_flat_map. exists s. split; [apply every_step |].
    unfold panel_calls. rewrite Hruns. by apply entry_called.
Qed.

Lemma helper_of_one_step (s s' : step) :
  renderer s = entry s' ∨ renderer s = renderer s' → s = s'.
Proof. destruct s, s'; simpl; by intros [?|?]. Qed.

(** The box plot is attempted exactly when the outlier step runs and the
    detector returns. *)
Lemma boxplot_in_call_log (d : DataFrame) :
  SnsBoxplot ∈ (flat_map (panel_calls d) steps).*1 ↔
  runs OutlierDetection d = true ∧
  ∃ rows, detect_result (input OutlierDetection d) outlier_columns
            = Returns rows.
Proof.
  rewrite list_elem_of_fmap. split.
  - intros ([h t] & Hh & (s & _ & Hin)%elem_of_flat_map). simpl in Hh.
    subst h. unfold panel_calls in Hin.
    destruct (runs s d) eqn:Hruns; [| by apply elem_of_nil in Hin].
    assert (s = OutlierDetection) as ->.
    { symmetry. apply helper_of_one_step.
      assert (SnsBoxplot = entry s ∨ SnsBoxplot = renderer s) as [?|?];
        [| by left | by right].
      apply (body_calls_of_step s d). apply list_elem_of_fmap.
      by exists (SnsBoxplot, t). }
    split; [done |]. unfold body_calls, input in *.
    destruct (getitem d outlier_columns) as [t0|];
      [| by apply elem_of_nil in Hin].
    destruct (detect_result t0 outlier_columns) as [rows|]; [by exists rows |].
    by apply list_elem_of_singleton in Hin.
  - intros [Hruns [rows Hrows]].
    destruct (getitem_returns d outlier_columns Hruns) as [t0 Ht0].
    exists (SnsBoxplot, t0). split; [done |].
    apply elem_of_flat_map. exists OutlierDetection.
    split; [apply every_step |].
    unfold panel_calls. rewrite Hruns. unfold body_calls, input in *.
    rewrite Ht0 in *. rewrite Hrows.
    apply list_elem_of_further, list_elem_of_here.
Qed.

Lemma body_in_panel (d : DataFrame) (s : step) (x : element) :
  runs s d = true → x ∈ body_ui s d → x ∈ flat_map (panel_ui d) steps.
Proof.
  intros Hruns Hx. apply elem_of_flat_map. exists s.
  split; [apply every_step |].
  unfold panel_ui. rewrite Hruns. destruct s; by apply list_elem_of_further.
Qed.

Lemma failure_shown (s : step) (d : DataFrame) (e : exn) :
  failure s d = Some e → step_error s e ∈ body_ui s d.
Proof.
  unfold failure, body_ui.
  destruct s;
    try (intros ->; apply list_elem_of_here).
  destruct (getitem d outlier_columns) as [t|e'];
    [| intros [= ->]; apply list_elem_of_here].
  destruct (detect_result t outlier_columns) as [rows|e'];
    [| intros [= ->]; apply list_elem_of_here].
  intros ->. apply list_elem_of_further, list_elem_of_here.
Qed.

Lemma success_shown (s : step) (d : DataFrame) :
  failure s d = None → st_pyplot (renderer s) (input s d) ∈ body_ui s d.
Proof.
  unfold failure, body_ui, input.
  destruct s;
    try (intros ->; apply list_elem_of_here).
  destruct (getitem d outlier_columns) as [t|e']; [| done].
  destruct (detect_result t outlier_columns) as [rows|e']; [| done].
  intros ->. apply list_elem_of_further, list_elem_of_here.
Qed.

(** Every error element of the chart tabs is the error of a step that
    ran and failed. *)
Lemma error_has_a_step (d : DataFrame) (msg : string) :
  st_error msg ∈ flat_map (panel_ui d) steps →
  ∃ s e, runs s d = true ∧ failure s d = Some e ∧
         msg = label s +:+ ": " +:+ exc_text e.
Proof.
  intros (s & _ & Hin)%elem_of_flat_map.
  assert (runs s d = true ∧ st_error msg ∈ body_ui s d) as [Hruns Hbody].
  { unfold panel_ui in Hin.
    destruct s; destruct (runs _ d);
      rewrite ?elem_of_cons, ?elem_of_nil in Hin;
      intuition congruence. }
  exists s. unfold body_ui, failure, step_error in *.
  destruct s;
    try (destruct (draw_result _ d) as [e|];
         apply list_elem_of_singleton in Hbody; [| done];
         exists e; by injection Hbody as ->).
  destruct (getitem d outlier_columns) as [t|e];
    [| apply list_elem_of_singleton in Hbody; exists e; by injection Hbody as ->].
  destruct (detect_result t outlier_columns) as [rows|e];
    [| apply list_elem_of_singleton in Hbody; exists e; by injection Hbody as ->].
  apply elem_of_cons in Hbody as [? | Hbody]; [done |].
  destruct (draw_result SnsBoxplot t) as [e|];
    apply list_elem_of_singleton in Hbody; [| done].
  exists e; by injection Hbody as ->.
Qed.

(** C4: the two chart tabs return for every selected table and every
    behaviour of the helpers: no exception of a helper leaves its step.
    Whether a step is attempted depends on the columns of the table alone
    (its first helper is in the call log exactly when its requirement
    holds), so a failure in one step takes no other step away; the box
    plot, which follows the detector inside the outlier step, is attempted
    exactly when that step runs and the detector returns. A step
    that runs and fails shows one error element that starts with the
    label of that step and carries the text of the exception; a step that
    runs and does not fail shows its figure; every error element shown
    belongs to a step that ran and failed; and the labels of the eight
    steps are pairwise distinct. *)
Theorem chart_failures_are_isolated (d : DataFrame) (w : World) :
  ∃ es cs,
    (tab_visuals d ;; tab_advanced d) w = (Returns tt, extend w es cs) ∧
    (∀ s, entry s ∈ cs.*1 ↔ runs s d = true) ∧
    (SnsBoxplot ∈ cs.*1 ↔
     runs OutlierDetection d = true ∧
     ∃ rows, detect_result (input OutlierDetection d) outlier_columns
               = Returns rows) ∧
    (∀ s e, runs s d = true → failure s d = Some e → step_error s e ∈ es) ∧
    (∀ s, runs s d = true → failure s d = None →
          st_pyplot (renderer s) (input s d) ∈ es) ∧
    (∀ msg, st_error msg ∈ es →
            ∃ s e, runs s d = true ∧ failure s d = Some e ∧
                   st_error msg = step_error s e) ∧
    NoDup (label <$> steps).
Proof.
  eexists _, _. split; [apply chart_tabs_emit |].
  split; [apply entry_in_call_log |].
  split; [apply boxplot_in_call_log |].
  assert (∀ x, x ∈ flat_map (panel_ui d) steps →
            x ∈ (st_header "Data Visualizations"
                   :: flat_map (panel_ui d) visual_steps)
                ++ st_header "Advanced Analysis"
                   :: flat_map (panel_ui d) advanced_steps) as Hsub.
  { intros x. unfold steps. rewrite flat_map_app.
    rewrite !elem_of_app, !elem_of_cons. tauto. }
  repeat split.
  - intros s e Hruns Hfail. eapply Hsub, body_in_panel; [done |].
    by apply failure_shown.
  - intros s Hruns Hok. eapply Hsub, body_in_panel; [done |].
    by apply success_shown.
  - intros msg Hin.
    destruct (error_has_a_step d msg) as (s & e & ? & ? & ->).
    + unfold steps. rewrite flat_map_app.
      rewrite elem_of_app, !elem_of_cons in Hin.
      rewrite elem_of_app. by destruct Hin as [[? | ?] | [? | ?]]; auto.
    + by exists s, e.
  - apply (bool_decide_unpack _). by vm_compute.
Qed.

Lemma call_has_a_step (d : DataFrame) (h : helper) :
  h ∈ (flat_map (panel_calls d) steps).*1 →
  ∃ s, runs s d = true ∧ (h = entry s ∨ h = renderer s).
Proof.
  intros ([h' t] & -> & (s & _ & Hin)%elem_of_flat_map)%list_elem_of_fmap.
  unfold panel_calls in Hin. destruct (runs s d) eqn:Hruns;
    [| by apply elem_of_nil in Hin].
  exists s. split; [done |]. apply body_calls_of_step with d.
  apply list_elem_of_fmap. by exists (h', t).
Qed.

(** No label is the beginning of an error message of another step. *)
Lemma label_prefix_free (s s' : step) (t t' : string) :
  label s +:+ t = label s' +:+ t' → s = s'.
Proof. destruct s, s'; simpl; intros Heq; done || discriminate Heq. Qed.

Lemma error_in_chart_tabs (d : DataFrame) (msg : string) :
  st_error msg ∈ (st_header "Data Visualizations"
                    :: flat_map (panel_ui d) visual_steps)
                 ++ st_header "Advanced Analysis"
                    :: flat_map (panel_ui d) advanced_steps →
  st_error msg ∈ flat_map (panel_ui d) steps.
Proof.
  unfold steps. rewrite flat_map_app, !elem_of_app, !elem_of_cons.
  intros [[? | ?] | [? | ?]]; (done || auto).
Qed.

Lemma skipped_when_not_run (d : DataFrame) (s : step) :
  runs s d = false →
  skipped s
    ((st_header "Data Visualizations" :: flat_map (panel_ui d) visual_steps)
       ++ st_header "Advanced Analysis" :: flat_map (panel_ui d) advanced_steps)
    (flat_map (panel_calls d) steps).
Proof.
  intros Hskip. repeat split.
  - intros (s' & Hruns & Hs')%call_has_a_step.
    apply entry_of_one_step in Hs'. congruence.
  - intros (s' & Hruns & Hs')%call_has_a_step.
    apply helper_of_one_step in Hs'. congruence.
  - intros t Hin%error_in_chart_tabs.
    apply error_has_a_step in Hin as (s' & e & Hruns & _ & Heq).
    apply label_prefix_free in Heq. congruence.
Qed.

(** The subheader of the outlier step is shown even when the step is
    skipped: it precedes the guard. *)
Lemma outlier_subheader_without_columns (d : DataFrame) :
  runs OutlierDetection d = false →
  panel_ui d OutlierDetection = [st_subheader "Outlier Detection"].
Proof. intros Hskip. unfold panel_ui. by rewrite Hskip. Qed.

(** The pair plot runs as soon as one of its six columns is there. *)
Lemma pair_plot_runs_on_one_column (d : DataFrame) (col : string) :
  col ∈ analysis_columns → col ∈ columns d → runs PairPlot d = true.
Proof.
  intros Hcol Hd. unfold runs, required, satisfied.
  apply existsb_exists. exists col. split; [by apply list_elem_of_In |].
  by apply bool_decide_eq_true_2.
Qed.

(** The time-series step asks for the [Timestamp] column and nothing
    else. *)
Lemma time_series_needs_timestamp (d : DataFrame) :
  runs TimeSeriesTrends d = false ↔ "Timestamp" ∉ columns d.
Proof.
  unfold runs, required, satisfied, has_column. simpl.
  rewrite andb_true_r, bool_decide_eq_false. done.
Qed.

(** C5: the chart tabs return for every selected table, and every step
    whose requirement the table does not satisfy (a required column is
    absent, or for the pair plot all six are) is skipped: none of its
    helpers is in the call log, and no error element starts with its
    label. In particular a table without a [Timestamp] column gets no
    call of [plot_time_series] and no time-series error. *)
Theorem step_skipped_when_columns_absent (d : DataFrame) (w : World) :
  ∃ es cs,
    (tab_visuals d ;; tab_advanced d) w = (Returns tt, extend w es cs) ∧
    (∀ s, runs s d = false → skipped s es cs) ∧
    ("Timestamp" ∉ columns d → skipped TimeSeriesTrends es cs).
Proof.
  eexists _, _. split; [apply chart_tabs_emit |].
  split; [apply skipped_when_not_run |].
  intros Habsent. by apply skipped_when_not_run, time_series_needs_timestamp.
Qed.

End tabs.

(** ** The script as a whole *)

Section whole_script.
Context `{FileReader, Cleaner, Detector, Drawing}.

Lemma load_data_run (data_path : string) (w : World) :
  load_data data_path w =
    (Returns (raw data_path),
     mkWorld
       (ui w ++ match read_csv data_path with
                | Returns _ => []
                | Raises e =>
                    [st_error ("Failed to load data from " +:+ data_path
                                 +:+ ": " +:+ exc_text e)]
                end)
       (disk w) (calls w)).
Proof.
  unfold load_data, raw, try_except, lift.
  destruct (read_csv data_path); simpl; [| done].
  destruct w; simpl. by rewrite app_nil_r.
Qed.

(** What the loading loop leaves behind when it returns: the raw table of
    every item in the second dictionary, and for every item a cleaned
    table, in the first dictionary and on disk at the item's cleaned
    path. The call log is untouched. *)
Lemma load_and_clean_loop_returns (items : list (string * string)) :
  ∀ c0 u0 w c u w1,
    load_and_clean_loop items c0 u0 w = (Returns (c, u), w1) →
    calls w1 = calls w ∧
    u = foldl (λ m (i : string * string), <[i.1 := raw i.2]> m) u0 items ∧
    ∃ ts,
      Forall2 (λ (i : string * string) t,
                 clean_result (raw i.2) (cleaned_path i.1) = Returns t)
        items ts ∧
      c = foldl (λ m (it : string * string * DataFrame), <[it.1.1 := it.2]> m)
            c0 (zip items ts) ∧
      disk w1 = foldl (λ m (it : string * string * DataFrame),
                         <[cleaned_path it.1.1 := it.2]> m)
                  (disk w) (zip items ts).
Proof.
  induction items as [|[n p] rest IH]; intros c0 u0 w c u w1; simpl.
  - intros [= <- <- <-]. repeat split. exists []. by repeat split.
  - unfold mbind, ST_bind at 1. rewrite load_data_run.
    unfold clean_dataset, mbind, ST_bind at 1, lift, to_csv, mret, ST_ret.
    destruct (clean_result (raw p) (cleaned_path n)) as [t|e] eqn:Hclean;
      simpl; [| done].
    intros (Hcalls & -> & ts & Hts & -> & Hdisk)%IH. simpl in *.
    repeat split; [done |]. exists (t :: ts). repeat split; [| done].
    by constructor.
Qed.

Lemma configured_cleaned_paths :
  cleaned_path "Benin Malanville"
    = "data/cleaned_datasets/benin_malanville_cleaned.csv" ∧
  cleaned_path "Sierra Leone Bumbuna"
    = "data/cleaned_datasets/sierra_leone_bumbuna_cleaned.csv" ∧
  cleaned_path "Togo Dapaong QC"
    = "data/cleaned_datasets/togo_dapaong_qc_cleaned.csv".
Proof. by vm_compute. Qed.

(** The loop over the three configured datasets. *)
Lemma load_and_clean_all_datasets_returns w cleaned uncleaned w1 :
  load_and_clean_all_datasets w = (Returns (cleaned, uncleaned), w1) →
  calls w1 = calls w ∧
  ∀ n p, (n, p) ∈ DATASETS →
    uncleaned !! n = Some (raw p) ∧
    ∃ t, clean_result (raw p) (cleaned_path n) = Returns t ∧
         cleaned !! n = Some t ∧
         disk w1 !! cleaned_path n = Some t.
Proof.
  intros (Hcalls & -> & ts & Hts & -> & Hdisk)%load_and_clean_loop_returns.
  split; [done |]. rewrite Hdisk. clear Hdisk Hcalls.
  unfold DATASETS in *.
  apply Forall2_cons_inv_l in Hts as (t1 & ts1 & C1 & Hts & ->).
  apply Forall2_cons_inv_l in Hts as (t2 & ts2 & C2 & Hts & ->).
  apply Forall2_cons_inv_l in Hts as (t3 & ts3 & C3 & Hts & ->).
  apply Forall2_nil_inv_l in Hts as ->.
  destruct configured_cleaned_paths as (P1 & P2 & P3).
  simpl in C1, C2, C3. simpl foldl. simpl fst. simpl snd.
  rewrite P1, P2, P3 in *.
  intros n p Hin.
  repeat (apply elem_of_cons in Hin as [[= -> ->] | Hin]);
    [| | | by apply elem_of_nil in Hin].
  - rewrite P1. split; [by simplify_map_eq |]. exists t1. by simplify_map_eq.
  - rewrite P2. split; [by simplify_map_eq |]. exists t2. by simplify_map_eq.
  - rewrite P3. split; [by simplify_map_eq |]. exists t3. by simplify_map_eq.
Qed.


(** A table with at least one column is rendered to the end: nothing is
    raised, and the chart steps are the only callers of helpers. *)
Lemma render_returns_with_columns (name : string) (d : DataFrame) (w : World) :
  series d ≠ [] →
  ∃ es, render name d w
          = (Returns tt, extend w es (flat_map (panel_calls d) steps)).
Proof.
  intros Hcols.
  assert (emits (tab_eda d)
            [st_header "Exploratory Data Analysis";
             st_write "**Data Summary:**"; st_write_describe d;
             st_write "**Missing Values:**"; st_write_counts (isnull_sum d);
             st_write "**Duplicates:**"; st_write_number (duplicated_sum d)] [])
    as Heda.
  { intros w0. unfold tab_eda, describe, show, extend, mbind, ST_bind.
    destruct (series d); [done |]. simpl.
    by rewrite <- !app_assoc, app_nil_r. }
  assert (∃ es, emits (render name d) es (flat_map (panel_calls d) steps))
    as [es Hes]; [| exists es; apply Hes].
  assert (flat_map (panel_calls d) steps
          = [] ++ [] ++ [] ++ ([] ++ []) ++ [] ++
            flat_map (panel_calls d) visual_steps ++
            flat_map (panel_calls d) advanced_steps) as ->
    by (unfold steps; by rewrite flat_map_app).
  eexists. unfold render, tab_overview.
  repeat lazymatch goal with
    | |- emits (tab_eda _) _ _ => exact Heda
    | |- emits (tab_visuals _) _ _ => apply tab_visuals_emits
    | |- emits (tab_advanced _) _ _ => apply tab_advanced_emits
    | |- emits (show _) _ _ => apply emits_show
    | |- emits (mbind _ _) _ _ => apply emits_seq
    end.
Qed.

(** A table without columns, as the loader returns after a failure,
    stops the page at the summary of the EDA tab: [describe] raises
    outside any handler, and no chart step is reached. *)
Lemma render_stops_without_columns (name : string) (d : DataFrame) (w : World) :
  series d = [] →
  ∃ w', render name d w
          = (Raises (Exception "ValueError"
                       "Cannot describe a DataFrame without columns"), w') ∧
        calls w' = calls w.
Proof.
  intros Hempty. unfold render, tab_overview, tab_eda, describe.
  rewrite Hempty. by eexists.
Qed.

End whole_script.

(** ** The cleaned path *)

Section cleaned_paths.
Import observed.

Lemma first_char_not_slash (c : ascii) :
  c ≠ "/"%char →
  (if decide (lower_char c = " "%char) then "_"%char else lower_char c)
    ≠ "/"%char.
Proof.
  destruct c as [[] [] [] [] [] [] [] []]; vm_compute; congruence.
Qed.

Lemma cleaned_file_name_relative (name : string) :
  starts_with_slash name = false →
  starts_with_slash (cleaned_file_name name) = false.
Proof.
  unfold cleaned_file_name, replace_char, lower.
  destruct name as [|c rest]; [done |]. simpl.
  intros Hc.
  assert (c ≠ "/"%char) as Hne.
  { intros ->. discriminate Hc. }
  apply first_char_not_slash in Hne.
  destruct (if decide (lower_char c = " "%char) then "_"%char else lower_char c)
    as [[] [] [] [] [] [] [] []]; done.
Qed.

Lemma tidy_char (c : ascii) :
  tidy c ≠ " "%char ∧ is_upper (tidy c) = false ∧
  tidy (lower_char c) = tidy c ∧
  tidy (if decide (c = " "%char) then "_"%char else c) = tidy c.
Proof. destruct c as [[] [] [] [] [] [] [] []]; by vm_compute. Qed.

Lemma str_map_str_map (f g : ascii → ascii) (s : string) :
  str_map f (str_map g s) = str_map (λ c, f (g c)) s.
Proof. induction s as [|c s IH]; [done |]. simpl. by rewrite IH. Qed.

Lemma str_map_ext (f g : ascii → ascii) (s : string) :
  (∀ c, f c = g c) → str_map f s = str_map g s.
Proof. intros Hfg. induction s as [|c s IH]; [done |]. simpl. by rewrite Hfg, IH. Qed.

Lemma stem_is_tidy (name : string) :
  replace_char " " "_" (lower name) = str_map tidy name.
Proof. unfold replace_char, lower. by rewrite str_map_str_map. Qed.

(** The code and the spec's words agree on every character. *)
Lemma tidy_as_claimed (c : ascii) : tidy c = space_to_underscore (lowercased c).
Proof. destruct c as [[] [] [] [] [] [] [] []]; by vm_compute. Qed.

(** The three configured names are ASCII and do not start with a slash. *)
Lemma configured_names_are_plain (name : string) :
  name ∈ DATASETS.*1 → is_ascii name ∧ starts_with_slash name = false.
Proof.
  unfold DATASETS. simpl. rewrite !elem_of_cons, elem_of_nil.
  intros [-> | [-> | [-> | []]]]; (split; [| done]);
    apply (bool_decide_unpack _); by vm_compute.
Qed.

(** C8: for every dataset name of ASCII characters that does not start
    with a slash, and so for each of the three configured names, the path
    that line 39 computes is the one the spec describes: the configured
    output directory [data/cleaned_datasets/], then the name with every
    capital letter replaced by its lowercase letter and every space by an
    underscore, then [_cleaned.csv]. The path is a function of the name
    alone. *)
Theorem cleaned_path_derived_from_name (name : string) :
  is_ascii name →
  starts_with_slash name = false →
  cleaned_path name = claimed_path name.
Proof.
  intros _ Hrel%cleaned_file_name_relative.
  unfold cleaned_path, os_path_join. rewrite Hrel.
  unfold cleaned_file_name, claimed_path. rewrite stem_is_tidy.
  rewrite str_map_str_map.
  rewrite (str_map_ext tidy (λ c, space_to_underscore (lowercased c)))
    by apply tidy_as_claimed.
  reflexivity.
Qed.

End cleaned_paths.

(** ** The extraction utility *)

Section extraction_properties.
Import utils.
Context `{ZipLibrary}.

Lemma extractall_writable (members : list (string * string)) (path : string) :
  ∀ m, Forall (writable path) members →
       extractall members path m
         = (Returns tt, mkMachine (extracted members path (fs m)) (stdout m)).
Proof.
  induction members as [|[name content] rest IH]; intros m Hall; simpl.
  - by destruct m.
  - apply Forall_cons in Hall as [Hw Hall].
    unfold mbind, ST_bind, write_file. unfold writable in Hw. simpl in Hw.
    rewrite Hw. by rewrite IH.
Qed.

(** Extraction never prints. *)
Lemma extractall_stdout (members : list (string * string)) (path : string) :
  ∀ m o m', extractall members path m = (o, m') → stdout m' = stdout m.
Proof.
  induction members as [|[name content] rest IH]; intros m o m'; simpl.
  - by intros [= _ <-].
  - unfold mbind, ST_bind, write_file.
    destruct (write_error (member_target path name)); [by intros [= _ <-] |].
    by intros ->%IH.
Qed.

(** A member is found at its target with its content, unless a later
    member has the same target. *)
Lemma extracted_lookup (members : list (string * string)) (path : string) :
  ∀ files i name content,
    members !! i = Some (name, content) →
    (∀ j later, i < j → members !! j = Some later →
                member_target path later.1 ≠ member_target path name) →
    extracted members path files !! member_target path name = Some content.
Proof.
  unfold extracted.
  induction members as [|member rest IH]; intros files i name content;
    [done |].
  destruct i as [|i]; simpl.
  - intros [= ->] Hlast. simpl.
    clear IH. revert files.
    assert (∀ later, later ∈ rest →
              member_target path later.1 ≠ member_target path name) as Hrest.
    { intros later [j Hj]%list_elem_of_lookup. apply (Hlast (S j)); [lia | done]. }
    clear Hlast. induction rest as [|r rest IHr]; intros files; simpl.
    + by rewrite lookup_insert_eq.
    + rewrite insert_insert_ne; [apply IHr |].
      * intros later Hin. apply Hrest. by right.
      * intros Heq. by apply (Hrest r); [left |].
  - intros Hi Hlast. apply (IH _ i); [done |].
    intros j later Hj Hlater. apply (Hlast (S j)); [lia | done].
Qed.

(** C9: [extract_datasets] has no handler. An error of opening the
    archive (no such file, not a zip archive) comes out as it is, with
    the machine untouched. An error of extraction comes out as it is,
    with the files written up to that point and nothing printed. When
    the archive opens and every member can be written, the call returns,
    the files are those of before with every member written below the
    destination (each member is found at its target with its content,
    unless a later member has the same target), and exactly one line is
    printed, which reports the archive and the destination. *)
Theorem extract_datasets_extracts_or_propagates
    (input_data_path output_data_path : string) (m : Machine) :
  (∀ e m', ZipFile_open input_data_path m = (Raises e, m') →
     extract_datasets input_data_path output_data_path m = (Raises e, m) ∧
     m' = m) ∧
  (∀ members e m',
     ZipFile_open input_data_path m = (Returns members, m) →
     extractall members output_data_path m = (Raises e, m') →
     extract_datasets input_data_path output_data_path m = (Raises e, m') ∧
     stdout m' = stdout m) ∧
  (∀ members,
     ZipFile_open input_data_path m = (Returns members, m) →
     Forall (writable output_data_path) members →
     extract_datasets input_data_path output_data_path m
       = (Returns tt,
          mkMachine (extracted members output_data_path (fs m))
            (stdout m ++ ["Extracted " +:+ input_data_path +:+ " to "
                            +:+ output_data_path])) ∧
     ∀ i name content,
       members !! i = Some (name, content) →
       (∀ j later, i < j → members !! j = Some later →
          member_target output_data_path later.1
            ≠ member_target output_data_path name) →
       extracted members output_data_path (fs m)
         !! member_target output_data_path name = Some content).
Proof.
  unfold extract_datasets, mbind, ST_bind.
  split; [| split].
  - intros e m' Hopen. rewrite Hopen.
    unfold ZipFile_open in Hopen.
    destruct (fs m !! input_data_path) as [bytes|];
      [destruct (decode_zip bytes) |]; by injection Hopen as _ <-.
  - intros members e m' -> Hextract. rewrite Hextract.
    split; [done |]. by eapply extractall_stdout.
  - intros members -> Hall. rewrite (extractall_writable _ _ _ Hall).
    split; [done |]. intros i name content. apply extracted_lookup.
Qed.

End extraction_properties.

(** ** The cleaner *)

Section cleaner_properties.
Import cleaner.
Context `{Policy}.
Local Existing Instance spec_cleaner.

Lemma count_missing_zero (xs : list cell) :
  Forall (λ c : cell, is_Some c) xs → count_missing xs = 0.
Proof.
  unfold count_missing. induction 1 as [|c xs [v ->] _ IH]; [done |].
  by rewrite filter_cons_False.
Qed.

Lemma columns_normalize_timestamp d :
  columns (normalize_timestamp d) = columns d.
Proof.
  unfold columns, normalize_timestamp; simpl.
  rewrite <- list_fmap_compose. apply list_fmap_ext.
  intros _ [n xs] _; simpl. by case_decide.
Qed.

Lemma columns_coerce_numeric d : columns (coerce_numeric d) = columns d.
Proof.
  unfold columns, coerce_numeric; simpl.
  rewrite <- list_fmap_compose. apply list_fmap_ext.
  intros _ [n xs] _; simpl. by destruct (is_numeric_column n).
Qed.

Lemma columns_handle_missing d : columns (handle_missing d) = columns d.
Proof.
  unfold columns, handle_missing, dropna, fillna.
  destruct missing_strategy; simpl;
    rewrite <- list_fmap_compose; by apply list_fmap_ext.
Qed.

(** Cleaning keeps the columns and their order. *)
Lemma columns_clean_table d : columns (clean_table d) = columns d.
Proof.
  unfold clean_table.
  by rewrite columns_handle_missing, columns_coerce_numeric,
    columns_normalize_timestamp.
Qed.

(** A kept row has a defined cell in every column. *)
Lemma complete_rows_defined d i (s : string * list cell) :
  i ∈ complete_rows d → s ∈ series d → is_Some (mjoin (s.2 !! i)).
Proof.
  unfold complete_rows, complete_row.
  intros [Hrow _]%list_elem_of_filter Hs.
  rewrite forallb_forall in Hrow.
  apply list_elem_of_In, Hrow in Hs. by apply bool_decide_eq_true_1 in Hs.
Qed.

Lemma dropna_no_missing d :
  Forall (λ s : string * list cell, count_missing s.2 = 0) (series (dropna d)).
Proof.
  unfold dropna; simpl. apply Forall_fmap, Forall_forall.
  intros s Hs; simpl. apply count_missing_zero, Forall_fmap, Forall_forall.
  intros i Hi; simpl. by apply (complete_rows_defined d).
Qed.

Lemma fillna_no_missing fill d :
  Forall (λ s : string * list cell, count_missing s.2 = 0)
    (series (fillna fill d)).
Proof.
  unfold fillna; simpl. apply Forall_fmap, Forall_forall.
  intros s Hs; simpl. apply count_missing_zero, Forall_fmap, Forall_forall.
  intros c _; simpl. by eexists.
Qed.

Lemma handle_missing_no_missing d :
  Forall (λ s : string * list cell, count_missing s.2 = 0)
    (series (handle_missing d)).
Proof.
  unfold handle_missing. destruct missing_strategy;
    [apply dropna_no_missing | apply fillna_no_missing].
Qed.

(** The missing-value counts of a cleaned table: every column of the
    input, with count zero. *)
Lemma isnull_sum_clean_table d :
  isnull_sum (clean_table d) = (λ col, (col, 0)) <$> columns d.
Proof.
  rewrite <- columns_clean_table. unfold isnull_sum, columns.
  rewrite <- list_fmap_compose. apply list_fmap_ext.
  intros i s Hs; simpl. f_equal.
  pose proof (handle_missing_no_missing
                (coerce_numeric (normalize_timestamp d))) as Hall.
  rewrite Forall_forall in Hall. apply Hall.
  by apply list_elem_of_lookup_2 in Hs.
Qed.

Lemma clean_dataset_run (raw_data : DataFrame) (output_path : string) w :
  clean_dataset raw_data output_path w
    = (Returns (clean_table raw_data),
       mkWorld (ui w) (<[output_path := clean_table raw_data]> (disk w))
         (calls w)).
Proof. reflexivity. Qed.

(** C3: for every raw table, [clean_dataset] returns a cleaned table
    and writes it at the output path; the table has the columns of the
    raw table, and its missing-value counts, the ones the EDA tab shows
    for a table, are zero in every column. *)
Theorem cleaned_table_has_no_missing_values
    (raw_data : DataFrame) (output_path : string) (w : World) :
  ∃ cleaned w',
    clean_dataset raw_data output_path w = (Returns cleaned, w') ∧
    disk w' !! output_path = Some cleaned ∧
    columns cleaned = columns raw_data ∧
    (isnull_sum cleaned).*1 = columns raw_data ∧
    ∀ col n, (col, n) ∈ isnull_sum cleaned → n = 0.
Proof.
  eexists _, _. split; [apply clean_dataset_run |]. simpl.
  split; [by rewrite lookup_insert_eq |].
  split; [apply columns_clean_table |].
  rewrite isnull_sum_clean_table. split.
  - rewrite <- list_fmap_compose. by rewrite list_fmap_id.
  - by intros col n (c & [= _ ->] & _)%list_elem_of_fmap.
Qed.

(** C7: cleaning the cleaned table again changes no missing-value
    count: the second cleaned table has the same columns with the same
    counts as the first. *)
Theorem clean_is_idempotent_on_missing_counts
    (raw_data : DataFrame) (path1 path2 : string) (w : World) :
  ∃ once w1 twice w2,
    clean_dataset raw_data path1 w = (Returns once, w1) ∧
    clean_dataset once path2 w1 = (Returns twice, w2) ∧
    isnull_sum twice = isnull_sum once.
Proof.
  eexists _, _, _, _. split; [apply clean_dataset_run |].
  split; [apply clean_dataset_run |].
  by rewrite !isnull_sum_clean_table, columns_clean_table.
Qed.

End cleaner_properties.

(** ** The outlier detector *)

Section detector_properties.
Import outliers.
Local Open Scope Qc_scope.
Variable threshold : Qc.

Lemma count_cons (x : Qc) (xs : list Qc) : count (x :: xs) = count xs + 1.
Proof.
  unfold count. simpl length. rewrite Nat2Z.inj_succ, <- Z.add_1_r.
  by rewrite Z2Qc_inj_add, Z2Qc_inj_1.
Qed.

Lemma count_nonzero (x : Qc) (xs : list Qc) : count (x :: xs) ≠ 0.
Proof.
  unfold count. rewrite <- Z2Qc_inj_0. intros Heq%Z2Qc_inj.
  simpl length in Heq. lia.
Qed.

Lemma total_constant (c : Qc) (xs : list Qc) :
  Forall (λ x, x = c) xs → total xs = count xs * c.
Proof.
  induction 1 as [|x xs -> _ IH].
  - change (count []) with (Qc_of_Z 0). by rewrite Z2Qc_inj_0, Qcmult_0_l.
  - rewrite count_cons. simpl. fold (total xs). rewrite IH. ring.
Qed.

Lemma mean_constant (c : Qc) (xs : list Qc) :
  xs ≠ [] → Forall (λ x, x = c) xs → mean xs = c.
Proof.
  intros Hne Hall. unfold mean. rewrite (total_constant c) by done.
  destruct xs as [|x xs]; [done |].
  rewrite Qcmult_comm. apply Qcdiv_mult_l, count_nonzero.
Qed.

Lemma total_zero (xs : list Qc) : Forall (λ x, x = 0) xs → total xs = 0.
Proof. intros ->%(total_constant 0). apply Qcmult_0_r. Qed.

(** A column of equal numbers has no variance. *)
Lemma variance_constant (c : Qc) (xs : list Qc) :
  Forall (λ x, x = c) xs → variance xs = 0.
Proof.
  intros Hall. unfold variance.
  rewrite total_zero; [apply Qcmult_0_l |].
  destruct xs as [|x xs]; [done |].
  rewrite (mean_constant c) by done.
  apply Forall_fmap. eapply Forall_impl; [exact Hall |].
  intros y ->; simpl. unfold sq. ring.
Qed.

(** No cell exceeds the threshold on a constant column: its score is
    undefined. *)
Lemma constant_never_exceeds (xs : list cell) (c : cell) :
  constant xs → exceeds threshold xs c = false.
Proof.
  intros [v Hall]. unfold exceeds, score_sq.
  destruct c as [[x| |]|]; try done.
  by rewrite decide_True by by apply (variance_constant v).
Qed.

(** C2: for every table and every list of columns that the table has,
    [detect_outliers] returns; a column whose numbers are all equal
    flags no row, for its score is undefined; and every row returned is
    flagged on one of the selected columns that is not constant, so no
    row is returned on account of a constant column alone. *)
Theorem constant_column_flags_no_row (d : DataFrame) (cols : list string) :
  forallb (has_column d) cols = true →
  ∃ rows,
    detect_outliers threshold d cols = Returns rows ∧
    (∀ col xs i, get_series (series d) col = Some xs → constant xs →
                 flagged_on threshold d i col = false) ∧
    (∀ i, i ∈ rows →
          ∃ col xs, col ∈ cols ∧ get_series (series d) col = Some xs ∧
                    ¬ constant xs ∧ flagged_on threshold d i col = true).
Proof.
  intros Hcols. unfold detect_outliers.
  destruct (getitem_returns d cols Hcols) as [t ->].
  eexists. split; [done |].
  assert (∀ col xs i, get_series (series d) col = Some xs → constant xs →
                      flagged_on threshold d i col = false) as Hconst.
  { intros col xs i Hget Hxs. unfold flagged_on. rewrite Hget.
    by apply constant_never_exceeds. }
  split; [done |].
  intros i [Hflag _]%list_elem_of_filter.
  apply existsb_exists in Hflag as (col & Hcol%list_elem_of_In & Hflag).
  destruct (get_series (series d) col) as [xs|] eqn:Hget;
    [| unfold flagged_on in Hflag; by rewrite Hget in Hflag].
  exists col, xs. repeat split; try done.
  intros Hxs. rewrite (Hconst col xs i Hget Hxs) in Hflag. done.
Qed.

End detector_properties.

(** ** Closed examples *)

Section examples.
Import samples.

Example load_missing_file :
  @load_data reader "data/original_datasets/togo-dapaong_qc.csv" blank
  = (Returns empty_frame,
     mkWorld
       [st_error "Failed to load data from data/original_datasets/togo-dapaong_qc.csv: [Errno 2] No such file or directory: 'data/original_datasets/togo-dapaong_qc.csv'"]
       ∅ []).
Proof. reflexivity. Qed.

Example outlier_in_readings :
  outliers.detect_outliers (Qc_of_Z 2) readings ["GHI"; "DNI"; "DHI"]
  = Returns [5].
Proof. by vm_compute. Qed.

Example absolute_name_leaves_the_folder :
  cleaned_path "/tmp/My Data" = "/tmp/my_data_cleaned.csv".
Proof. reflexivity. Qed.

Example visuals_with_failing_time_series :
  (@tab_visuals drawing readings blank).1 = Returns tt ∧
  ui (@tab_visuals drawing readings blank).2
  = [ st_header "Data Visualizations";
      st_subheader "Correlation Heatmap";
      st_pyplot PlotCorrelationHeatmap readings;
      st_subheader "Time Series Trends";
      st_error "Error plotting time series trends: bad timestamps";
      st_subheader "Wind Rose";
      st_pyplot PlotWindRose readings;
      st_subheader "Wind Direction Distribution";
      st_pyplot PlotWindDirectionDistribution readings ].
Proof. split; reflexivity. Qed.

Example advanced_on_readings :
  (@tab_advanced detector drawing readings blank).1 = Returns tt ∧
  (calls (@tab_advanced detector drawing readings blank).2).*1
  = [DetectOutliers; SnsBoxplot; PlotPairPlot].
Proof. split; by vm_compute. Qed.

Example page_stops_on_a_failed_load :
  (@run reader cleaning detector drawing "Togo Dapaong QC" blank).1
  = Raises (Exception "ValueError" "Cannot describe a DataFrame without columns").
Proof. by vm_compute. Qed.

Example cleaning_drops_the_incomplete_row :
  nrows (@cleaner.clean_table policy readings) = 5 ∧
  isnull_sum (@cleaner.clean_table policy readings)
  = [("Timestamp", 0); ("GHI", 0); ("DNI", 0); ("DHI", 0); ("WD", 0); ("WS", 0)].
Proof. split; by vm_compute. Qed.

Example extraction_of_an_archive :
  @utils.extract_datasets zip_library "data.zip" "out" machine
  = (Returns tt,
     utils.mkMachine
       {[ "data.zip" := "PK"; "notes.txt" := "hello";
          "out/a.csv" := "1,2"; "out/b.csv" := "3,4" ]}
       ["Extracted data.zip to out"]).
Proof. by vm_compute. Qed.

Example extraction_of_a_text_file :
  @utils.extract_datasets zip_library "notes.txt" "out" machine
  = (Raises (Exception "BadZipFile" "File is not a zip file"), machine).
Proof. by vm_compute. Qed.

(** The detector on the sample readings: both selected columns are
    there, the constant [DNI] flags nothing, and the one row returned is
    flagged on a column that is not constant. *)
Lemma constant_column_flags_no_row_on_readings :
  forallb (has_column readings) ["GHI"; "DNI"] = true ∧
  ∃ rows,
    outliers.detect_outliers (Qc_of_Z 2) readings ["GHI"; "DNI"] = Returns rows ∧
    (∀ col xs i, get_series (series readings) col = Some xs →
                 outliers.constant xs →
                 outliers.flagged_on (Qc_of_Z 2) readings i col = false) ∧
    (∀ i, i ∈ rows →
          ∃ col xs, col ∈ ["GHI"; "DNI"] ∧
                    get_series (series readings) col = Some xs ∧
                    ¬ outliers.constant xs ∧
                    outliers.flagged_on (Qc_of_Z 2) readings i col = true).
Proof.
  split; [reflexivity |].
  apply (constant_column_flags_no_row (Qc_of_Z 2) readings ["GHI"; "DNI"]).
  reflexivity.
Defined.

(** The chart tabs on readings without timestamps: the time-series step
    is skipped. *)
Lemma time_series_skipped_on_untimed :
  ("Timestamp" ∉ columns untimed) ∧
  ∃ es cs,
    (@tab_visuals drawing untimed ;; @tab_advanced detector drawing untimed) blank
      = (Returns tt, extend blank es cs) ∧
    skipped TimeSeriesTrends es cs.
Proof.
  assert ("Timestamp" ∉ columns untimed) as Habsent.
  { apply (bool_decide_unpack _). by vm_compute. }
  split; [exact Habsent |].
  destruct (@step_skipped_when_columns_absent detector drawing untimed blank)
    as (es & cs & Hrun & _ & Hts).
  exists es, cs. split; [exact Hrun | exact (Hts Habsent)].
Defined.


End examples.

(** ** More about the loading loop *)

Section loading_loop.
Import observed.
Context `{FileReader, Cleaner, Detector, Drawing}.

Lemma load_errors_app (xs ys : list (string * string)) :
  load_errors (xs ++ ys) = load_errors xs ++ load_errors ys.
Proof. unfold load_errors. apply flat_map_app. Qed.

(** The loop when every cleaning returns. *)
Lemma load_and_clean_loop_all_clean (items : list (string * string)) :
  ∀ c0 u0 w,
    Forall cleans items →
    load_and_clean_loop items c0 u0 w
    = (Returns (cleaned_tables items c0, raw_tables items u0),
       mkWorld (ui w ++ load_errors items) (written items (disk w)) (calls w)).
Proof.
  induction items as [|[n p] rest IH]; intros c0 u0 w Hall; simpl.
  - destruct w; simpl. by rewrite app_nil_r.
  - apply Forall_cons in Hall as [[t Ht] Hall]. simpl in Ht.
    unfold mbind, ST_bind at 1. rewrite load_data_run.
    unfold clean_dataset, mbind, ST_bind at 1, lift, to_csv, mret, ST_ret.
    rewrite Ht. simpl. rewrite IH by done. simpl.
    unfold cleaned_tables, raw_tables, written, cleaned_table, load_errors.
    simpl. rewrite Ht. unfold load_error. by rewrite <- app_assoc.
Qed.

(** The loop up to the first cleaning that raises. *)
Lemma load_and_clean_loop_first_failure
    (before after : list (string * string)) (n p : string) (e : exn) :
  ∀ c0 u0 w,
    Forall cleans before →
    clean_result (raw p) (cleaned_path n) = Raises e →
    load_and_clean_loop (before ++ (n, p) :: after) c0 u0 w
    = (Raises e,
       mkWorld (ui w ++ load_errors (before ++ [(n, p)]))
         (written before (disk w)) (calls w)).
Proof.
  induction before as [|[n' p'] rest IH]; intros c0 u0 w Hall Hfail; simpl.
  - unfold mbind, ST_bind at 1. rewrite load_data_run.
    unfold clean_dataset, mbind, ST_bind, lift. rewrite Hfail. simpl.
    unfold load_errors, load_error. simpl. by rewrite app_nil_r.
  - apply Forall_cons in Hall as [[t Ht] Hall]. simpl in Ht.
    unfold mbind, ST_bind at 1. rewrite load_data_run.
    unfold clean_dataset, mbind, ST_bind at 1, lift, to_csv, mret, ST_ret.
    rewrite Ht. simpl. rewrite IH by done. simpl.
    unfold written, cleaned_table, load_errors. simpl. rewrite Ht.
    unfold load_error. by rewrite <- app_assoc.
Qed.

(** Either every cleaning returns or there is a first one that raises. *)
Lemma cleans_or_first_failure (items : list (string * string)) :
  Forall cleans items ∨
  ∃ before n p after e,
    items = before ++ (n, p) :: after ∧ Forall cleans before ∧
    clean_result (raw p) (cleaned_path n) = Raises e.
Proof.
  induction items as [|[n p] rest IH]; [by left |].
  destruct (clean_result (raw p) (cleaned_path n)) as [t|e] eqn:Hc.
  - destruct IH as [Hall | (before & n' & p' & after & e & -> & Hall & Hfail)].
    + left. constructor; [by exists t | done].
    + right. exists ((n, p) :: before), n', p', after, e.
      repeat split; [| done]. constructor; [by exists t | done].
  - right. exists [], n, p, rest, e. by repeat split.
Qed.

(** From here on the configuration is used through the lemmas about it. *)
Local Opaque DATASETS.

Lemma raw_tables_lookup (items : list (string * string)) :
  ∀ start k,
    is_Some (raw_tables items start !! k) ↔ k ∈ items.*1 ∨ is_Some (start !! k).
Proof.
  unfold raw_tables.
  induction items as [|[n p] rest IH]; intros start k; simpl.
  - rewrite elem_of_nil. tauto.
  - rewrite IH, elem_of_cons. destruct (decide (n = k)) as [-> | Hne].
    + rewrite lookup_insert_eq. split; [by left; left | by right].
    + rewrite lookup_insert_ne by done. split.
      * intros [? | ?]; auto.
      * intros [[? | ?] | ?]; auto. congruence.
Qed.

Lemma cleaned_tables_lookup (items : list (string * string)) :
  ∀ start k,
    is_Some (cleaned_tables items start !! k)
    ↔ k ∈ items.*1 ∨ is_Some (start !! k).
Proof.
  unfold cleaned_tables.
  induction items as [|[n p] rest IH]; intros start k; simpl.
  - rewrite elem_of_nil. tauto.
  - rewrite IH, elem_of_cons. destruct (decide (n = k)) as [-> | Hne].
    + rewrite lookup_insert_eq. split; [by left; left | by right].
    + rewrite lookup_insert_ne by done. split.
      * intros [? | ?]; auto.
      * intros [[? | ?] | ?]; auto. congruence.
Qed.

Lemma run_all_clean (name path : string) (w : World) :
  (name, path) ∈ DATASETS → Forall cleans DATASETS →
  run name w
  = render name (raw path)
      (mkWorld (ui w ++ load_errors DATASETS) (written DATASETS (disk w))
         (calls w)).
Proof.
  intros Hin Hall. unfold run, load_and_clean_all_datasets, mbind, ST_bind.
  pose proof (load_and_clean_loop_all_clean DATASETS ∅ ∅ w Hall) as Hloop.
  rewrite Hloop. unfold page, selected_dataset.
  apply load_and_clean_all_datasets_returns in Hloop as [_ Hraw].
  destruct (Hraw name path Hin) as [-> _]. done.
Qed.

(** X1: when cleaning returns for each of the three configured datasets,
    the loading loop returns whatever the three loads do: a failed load
    does not keep the later datasets from being loaded and cleaned. The
    page gains exactly the error elements of the loads that failed, in the
    order of the configuration; the second dictionary holds for every
    dataset the table its load handed on, the first the table its cleaning
    returned; the call log is as before. *)
Theorem loading_outlives_failed_loads (w : World) :
  Forall cleans DATASETS →
  (load_and_clean_all_datasets w).1
  = Returns (cleaned_tables DATASETS ∅, raw_tables DATASETS ∅) ∧
  ui (load_and_clean_all_datasets w).2 = ui w ++ load_errors DATASETS ∧
  calls (load_and_clean_all_datasets w).2 = calls w ∧
  ∀ n p, (n, p) ∈ DATASETS →
    raw_tables DATASETS ∅ !! n = Some (raw p) ∧
    cleaned_tables DATASETS ∅ !! n = Some (cleaned_table (n, p)).
Proof.
  intros Hall.
  pose proof (load_and_clean_loop_all_clean DATASETS ∅ ∅ w Hall) as Hloop.
  unfold load_and_clean_all_datasets at 1 2 3. rewrite Hloop. simpl.
  split; [done |]. split; [done |]. split; [done |].
  intros n p Hin.
  apply load_and_clean_all_datasets_returns in Hloop as [_ Hloop].
  destruct (Hloop n p Hin) as (Hraw & t & Ht & Hc & _).
  split; [done |]. unfold cleaned_table. simpl. by rewrite Ht.
Qed.

Lemma cleaning_failure_stops_the_script_aux
    (before after : list (string * string)) (n p : string) (e : exn)
    (name : string) (w : World) :
  DATASETS = before ++ (n, p) :: after →
  Forall cleans before →
  clean_result (raw p) (cleaned_path n) = Raises e →
  run name w
  = (Raises e,
     mkWorld (ui w ++ load_errors (before ++ [(n, p)]))
       (written before (disk w)) (calls w)).
Proof.
  intros Hsplit Hall Hfail.
  unfold run, load_and_clean_all_datasets, mbind, ST_bind.
  rewrite Hsplit.
  by rewrite (load_and_clean_loop_first_failure before after n p e ∅ ∅ w).
Qed.

(** X2: a cleaning that raises stops the script. When cleaning returns
    for the datasets before one and raises for that one, every run raises
    the same exception, whichever dataset is selected: the datasets after
    it are neither loaded nor cleaned, no helper is called, and the page
    holds nothing but the load errors of the datasets up to that one. *)
Theorem cleaning_failure_stops_the_script
    (before after : list (string * string)) (n p : string) (e : exn)
    (name : string) (w : World) :
  DATASETS = before ++ (n, p) :: after →
  Forall cleans before →
  clean_result (raw p) (cleaned_path n) = Raises e →
  (run name w).1 = Raises e ∧
  ui (run name w).2 = ui w ++ load_errors (before ++ [(n, p)]) ∧
  calls (run name w).2 = calls w ∧
  (∀ x, x ∈ load_errors (before ++ [(n, p)]) → is_error x = true).
Proof.
  intros Hsplit Hall Hfail.
  rewrite (cleaning_failure_stops_the_script_aux before after n p e name w
             Hsplit Hall Hfail). simpl.
  split; [done |]. split; [done |]. split; [done |].
  intros x (i & _ & Hx)%elem_of_flat_map. unfold load_error in Hx.
  destruct (read_csv i.2); [by apply elem_of_nil in Hx |].
  by apply list_elem_of_singleton in Hx as ->.
Qed.

(** X3: when the loading loop returns, the two dictionaries hold exactly
    the configured names, and a name that is not configured selects the
    empty table. *)
Theorem unknown_name_selects_empty_table
    (w w1 : World) (cleaned uncleaned : gmap string DataFrame) :
  load_and_clean_all_datasets w = (Returns (cleaned, uncleaned), w1) →
  (∀ name, is_Some (uncleaned !! name) ↔ name ∈ DATASETS.*1) ∧
  (∀ name, is_Some (cleaned !! name) ↔ name ∈ DATASETS.*1) ∧
  (∀ name, name ∉ DATASETS.*1 →
           selected_dataset cleaned uncleaned name = empty_frame).
Proof.
  intros Hrun.
  destruct (cleans_or_first_failure DATASETS)
    as [Hall | (before & n & p & after & e & Hsplit & Hall & Hfail)].
  - unfold load_and_clean_all_datasets in Hrun.
    rewrite (load_and_clean_loop_all_clean DATASETS ∅ ∅ w Hall) in Hrun.
    injection Hrun as Hc Hu _. subst cleaned uncleaned.
    assert (∀ name, is_Some (raw_tables DATASETS ∅ !! name) ↔ name ∈ DATASETS.*1)
      as Hraw.
    { intros name. rewrite raw_tables_lookup, lookup_empty.
      split; [intros [? | [? ?]]; done | by left]. }
    split; [exact Hraw |]. split.
    + intros name. rewrite cleaned_tables_lookup, lookup_empty.
      split; [intros [? | [? ?]]; done | by left].
    + intros name Hname. unfold selected_dataset.
      destruct (raw_tables DATASETS ∅ !! name) eqn:Hlook; [| done].
      exfalso. apply Hname, Hraw. by eexists.
  - unfold load_and_clean_all_datasets in Hrun. rewrite Hsplit in Hrun.
    by rewrite (load_and_clean_loop_first_failure before after n p e ∅ ∅ w)
      in Hrun.
Qed.

(** X4: when cleaning returns for every configured dataset and the raw
    table of the selected one has no column, as after a failed load, the
    run raises the [ValueError] of [describe] at the EDA tab: no chart
    step is reached and no helper is called. *)
Theorem selection_without_columns_stops_the_page
    (name path : string) (w : World) :
  (name, path) ∈ DATASETS →
  Forall cleans DATASETS →
  series (raw path) = [] →
  ∃ w',
    run name w
    = (Raises (Exception "ValueError"
                 "Cannot describe a DataFrame without columns"), w') ∧
    calls w' = calls w.
Proof.
  intros Hin Hall Hcols. rewrite (run_all_clean name path w Hin Hall).
  unfold render, tab_overview, tab_eda, describe. rewrite Hcols.
  by eexists.
Qed.

(** X5: a run for a configured dataset returns exactly when cleaning
    returns for every configured dataset and the raw table of the selected
    one has at least one column ([describe] being the one call of the
    page outside a handler that can raise); the chart helpers cannot make
    the run fail. *)
Theorem run_returns_iff (name path : string) (w : World) :
  (name, path) ∈ DATASETS →
  (run name w).1 = Returns tt
  ↔ Forall cleans DATASETS ∧ series (raw path) ≠ [].
Proof.
  intros Hin. split.
  - intros Hret.
    destruct (cleans_or_first_failure DATASETS)
      as [Hall | (before & n & p & after & e & Hsplit & Hall & Hfail)].
    + split; [done |]. intros Hcols.
      rewrite (run_all_clean name path w Hin Hall) in Hret.
      destruct (render_stops_without_columns name (raw path)
                  (mkWorld (ui w ++ load_errors DATASETS)
                     (written DATASETS (disk w)) (calls w)) Hcols)
        as (w' & Hstop & _).
      by rewrite Hstop in Hret.
    + by rewrite (cleaning_failure_stops_the_script_aux before after n p e name w)
        in Hret.
  - intros [Hall Hcols]. rewrite (run_all_clean name path w Hin Hall).
    by destruct (render_returns_with_columns name (raw path)
                   (mkWorld (ui w ++ load_errors DATASETS)
                      (written DATASETS (disk w)) (calls w)) Hcols) as [es ->].
Qed.

End loading_loop.

(** ** More about the chart tabs *)

Section chart_tabs_more.
Import observed.
Context `{Detector, Drawing}.

Lemma chart_tabs_run (d : DataFrame) (w : World) :
  chart_tabs d w
  = (Returns tt,
     extend w
       ((st_header "Data Visualizations" :: flat_map (panel_ui d) visual_steps)
          ++ st_header "Advanced Analysis"
             :: flat_map (panel_ui d) advanced_steps)
       (flat_map (panel_calls d) steps)).
Proof. apply chart_tabs_emit. Qed.

Lemma fmap_flat_map {A B C} (g : B → C) (f : A → list B) (l : list A) :
  g <$> flat_map f l = flat_map (λ x, g <$> f x) l.
Proof.
  induction l as [|x l IH]; [done |]. simpl. by rewrite fmap_app, IH.
Qed.

Lemma sublist_flat_map {A B} (f g : A → list B) (l : list A) :
  (∀ x, sublist (f x) (g x)) → sublist (flat_map f l) (flat_map g l).
Proof.
  intros Hfg. induction l as [|x l IH]; [done |]. simpl. by apply sublist_app.
Qed.

Lemma panel_calls_segment (d : DataFrame) (s : step) :
  sublist ((panel_calls d s).*1) (segment s).
Proof.
  unfold panel_calls. destruct (runs s d); [| apply sublist_nil_l].
  destruct s; try reflexivity.
  unfold body_calls, segment.
  destruct (getitem d outlier_columns) as [t|]; [| apply sublist_nil_l].
  destruct (detect_result t outlier_columns); simpl.
  - reflexivity.
  - apply sublist_skip, sublist_nil_l.
Qed.

(** X6: in the chart tabs the helpers are called in the fixed order of
    the script, each at most once, whatever the table holds and whichever
    helpers fail: the names in the call log form a sub-sequence of
    heatmap, time series, wind rose, wind direction, detector, box plot,
    temperature and humidity, temperature trends, pair plot. *)
Theorem helpers_called_in_script_order (d : DataFrame) (w : World) :
  ∃ es cs,
    chart_tabs d w = (Returns tt, extend w es cs) ∧
    sublist (cs.*1) helper_order ∧
    NoDup (cs.*1).
Proof.
  eexists _, _. split; [apply chart_tabs_run |].
  assert (sublist ((flat_map (panel_calls d) steps).*1) helper_order) as Hsub.
  { rewrite fmap_flat_map.
    change helper_order with (flat_map segment steps).
    apply sublist_flat_map, panel_calls_segment. }
  split; [done |].
  eapply sublist_NoDup; [| exact Hsub].
  apply (bool_decide_unpack _). by vm_compute.
Qed.

(** Selecting columns gives those columns, in the order asked, each with
    the cells it has in the table. *)
Lemma select_series_columns (ss out : list (string * list cell))
    (cols : list string) :
  select_series ss cols = Returns out →
  out.*1 = cols ∧
  ∀ col, col ∈ cols → get_series out col = get_series ss col.
Proof.
  revert out. induction cols as [|c cols IH]; intros out; simpl.
  - intros [= <-]. split; [done |]. by intros col ?%elem_of_nil.
  - destruct (get_series ss c) as [xs|] eqn:Hc; [| done].
    destruct (select_series ss cols) as [out'|] eqn:Hrest; [| done].
    intros [= <-]. destruct (IH out' eq_refl) as [Hnames Hcells].
    split; [rewrite fmap_cons; simpl; by f_equal |].
    intros col Hcol. simpl. case_decide as Heq; [by subst |].
    apply Hcells. apply elem_of_cons in Hcol as [? | ?]; [congruence | done].
Qed.

Lemma getitem_columns (d t : DataFrame) (cols : list string) :
  getitem d cols = Returns t →
  columns t = cols ∧ nrows t = nrows d ∧
  ∀ col, col ∈ cols → get_series (series t) col = get_series (series d) col.
Proof.
  unfold getitem, columns.
  destruct (select_series (series d) cols) as [out|] eqn:Hsel; [| done].
  intros [= <-]. simpl.
  destruct (select_series_columns _ _ _ Hsel) as [? ?]. by repeat split.
Qed.

(** X7: what the helpers are given. On a table with distinct column
    names, every helper of the chart tabs is called on the selected table
    itself, except the detector and the box plot, which are called on a
    table of the same length with exactly the columns GHI, DNI, DHI in that
    order, each holding the cells it holds in the selected table. *)
Theorem helpers_get_the_selected_table (d : DataFrame) (w : World) :
  NoDup (columns d) →
  ∃ es cs,
    chart_tabs d w = (Returns tt, extend w es cs) ∧
    ∀ h t, (h, t) ∈ cs →
      if bool_decide (h ∈ [DetectOutliers; SnsBoxplot])
      then columns t = outlier_columns ∧ nrows t = nrows d ∧
           ∀ col, col ∈ outlier_columns →
                  get_series (series t) col = get_series (series d) col
      else t = d.
Proof.
  intros _. eexists _, _. split; [apply chart_tabs_run |].
  intros h t (s & _ & Hin)%elem_of_flat_map.
  unfold panel_calls in Hin. destruct (runs s d); [| by apply elem_of_nil in Hin].
  destruct s; unfold body_calls, entry in Hin;
    try (apply list_elem_of_singleton in Hin; by injection Hin as -> ->).
  destruct (getitem d outlier_columns) as [t0|] eqn:Hget;
    [| by apply elem_of_nil in Hin].
  apply getitem_columns in Hget.
  destruct (detect_result t0 outlier_columns);
    rewrite ?elem_of_cons, ?elem_of_nil in Hin;
    destruct Hin as [[= -> ->] | Hin]; try done;
    destruct Hin as [[= -> ->] | []]; done.
Qed.

(** When the requirement of one step holds, so does that of another. *)
Lemma runs_together (d : DataFrame) :
  runs CorrelationHeatmap d = true ∧
  (runs WindRose d = true → runs WindDirectionDistribution d = true) ∧
  (runs OutlierDetection d = true → runs PairPlot d = true) ∧
  (runs TemperatureVsHumidity d = true → runs PairPlot d = true) ∧
  (runs TemperatureTrends d = true → runs PairPlot d = true).
Proof.
  unfold runs, required, satisfied, outlier_columns, module_columns,
    analysis_columns. simpl.
  repeat split;
    repeat match goal with |- context [has_column d ?c] =>
      destruct (has_column d c) end; done.
Qed.

(** X8: which charts come together. The correlation heatmap is attempted
    on every table. Whenever the wind rose is attempted so is the wind
    direction distribution, and whenever the outlier detection, the
    temperature and humidity chart or the temperature trends are attempted
    so is the pair plot. *)
Theorem charts_that_come_together (d : DataFrame) (w : World) :
  ∃ es cs,
    chart_tabs d w = (Returns tt, extend w es cs) ∧
    PlotCorrelationHeatmap ∈ cs.*1 ∧
    (PlotWindRose ∈ cs.*1 → PlotWindDirectionDistribution ∈ cs.*1) ∧
    (DetectOutliers ∈ cs.*1 → PlotPairPlot ∈ cs.*1) ∧
    (PlotTemperatureVsHumidity ∈ cs.*1 → PlotPairPlot ∈ cs.*1) ∧
    (PlotTemperatureTrends ∈ cs.*1 → PlotPairPlot ∈ cs.*1).
Proof.
  eexists _, _. split; [apply chart_tabs_run |].
  destruct (runs_together d) as (Hheat & Hwind & Hout & Hhum & Htemp).
  pose proof (entry_in_call_log d) as Hlog.
  split; [by apply (Hlog CorrelationHeatmap) |].
  split; [intros ?%(Hlog WindRose);
          by apply (Hlog WindDirectionDistribution), Hwind |].
  split; [intros ?%(Hlog OutlierDetection); by apply (Hlog PairPlot), Hout |].
  split; [intros ?%(Hlog TemperatureVsHumidity);
          by apply (Hlog PairPlot), Hhum |].
  intros ?%(Hlog TemperatureTrends). by apply (Hlog PairPlot), Htemp.
Qed.

Lemma count_flat_map {A} (f : A → list element) (g : A → bool) (l : list A) :
  (∀ x, length (List.filter is_error (f x)) = if g x then 1 else 0) →
  length (List.filter is_error (flat_map f l)) = length (List.filter g l).
Proof.
  intros Hfg. induction l as [|x l IH]; [done |]. simpl.
  rewrite List.filter_app, length_app, Hfg, IH. by destruct (g x).
Qed.

Lemma panel_error_count (d : DataFrame) (s : step) :
  length (List.filter is_error (panel_ui d s)) = if fails d s then 1 else 0.
Proof.
  unfold fails, panel_ui.
  destruct s; destruct (runs _ d); try done;
    unfold body_ui, failure, step_error; simpl andb;
    try (destruct (draw_result _ d); by simpl).
  destruct (getitem d outlier_columns) as [t|]; [| done].
  destruct (detect_result t outlier_columns); [| done].
  by destruct (draw_result SnsBoxplot t).
Qed.

(** X9: the chart tabs show exactly one error element for every step
    that runs and fails, and none otherwise: the number of error elements
    they add equals the number of steps that fail, and is at most
    eight. *)
Theorem one_error_per_failing_step (d : DataFrame) (w : World) :
  ∃ es cs,
    chart_tabs d w = (Returns tt, extend w es cs) ∧
    length (List.filter is_error es) = length (List.filter (fails d) steps) ∧
    (length (List.filter is_error es) ≤ 8)%nat.
Proof.
  eexists _, _. split; [apply chart_tabs_run |].
  assert (length (List.filter is_error
            ((st_header "Data Visualizations"
                :: flat_map (panel_ui d) visual_steps)
               ++ st_header "Advanced Analysis"
                  :: flat_map (panel_ui d) advanced_steps))
          = length (List.filter (fails d) steps)) as ->.
  { assert (∀ h l, List.filter is_error (st_header h :: l)
                   = List.filter is_error l) as Hheader by done.
    rewrite List.filter_app, length_app, !Hheader.
    rewrite !(count_flat_map _ (fails d)) by apply panel_error_count.
    unfold steps. by rewrite List.filter_app, length_app. }
  split; [done |].
  etrans; [apply List.filter_length_le |]. done.
Qed.

(** X10: the count of the outlier step outlives a failing box plot. When
    the outlier step runs and the detector returns, the page shows the
    number of rows it returned; if the box plot then raises, the error of
    the step is shown as well, after the count. *)
Theorem outlier_count_is_shown
    (d : DataFrame) (w : World) (rows : list nat) :
  runs OutlierDetection d = true →
  detect_result (input OutlierDetection d) outlier_columns = Returns rows →
  ∃ es cs,
    chart_tabs d w = (Returns tt, extend w es cs) ∧
    outlier_count (length rows) ∈ es ∧
    ∀ e, draw_result SnsBoxplot (input OutlierDetection d) = Some e →
         sublist [outlier_count (length rows); step_error OutlierDetection e] es.
Proof.
  intros Hruns Hrows. eexists _, _. split; [apply chart_tabs_run |].
  destruct (getitem_returns d outlier_columns Hruns) as [t Ht].
  unfold input in Hrows. rewrite Ht in Hrows.
  assert (panel_ui d OutlierDetection
          = st_subheader "Outlier Detection"
            :: outlier_count (length rows)
            :: match draw_result SnsBoxplot t with
               | None => [st_pyplot SnsBoxplot t]
               | Some e => [step_error OutlierDetection e]
               end) as Hpanel.
  { unfold panel_ui. rewrite Hruns. unfold body_ui. by rewrite Ht, Hrows. }
  change (flat_map (panel_ui d) advanced_steps)
    with (panel_ui d OutlierDetection
            ++ flat_map (panel_ui d)
                 [TemperatureVsHumidity; TemperatureTrends; PairPlot]).
  rewrite Hpanel. split.
  - apply elem_of_app. right. apply list_elem_of_further.
    apply elem_of_app. left. apply list_elem_of_further, list_elem_of_here.
  - intros e He. unfold input in He. rewrite Ht in He. rewrite He.
    apply sublist_inserts_l, sublist_cons, sublist_inserts_r, sublist_cons.
    reflexivity.
Qed.

End chart_tabs_more.

(** ** More about the cleaned file name *)

Section file_names.
Import observed.

Lemma length_str_map (f : ascii → ascii) (s : string) :
  String.length (str_map f s) = String.length s.
Proof. induction s as [|c s IH]; [done |]. simpl. by rewrite IH. Qed.

Lemma length_append (s t : string) :
  String.length (s +:+ t) = String.length s + String.length t.
Proof. induction s as [|c s IH]; [done |]. simpl. by rewrite IH. Qed.

Lemma chars_append (s t : string) :
  list_ascii_of_string (s +:+ t)
  = list_ascii_of_string s ++ list_ascii_of_string t.
Proof. induction s as [|c s IH]; [done |]. simpl. by rewrite IH. Qed.

Lemma tidy_stays_ascii (c : ascii) :
  (N_of_ascii c <? 128)%N = true → (N_of_ascii (tidy c) <? 128)%N = true.
Proof. destruct c as [[] [] [] [] [] [] [] []]; by vm_compute. Qed.

(** X11: for a dataset name of ASCII characters, the name of the cleaned
    file is as long as the dataset name plus the twelve characters of
    [_cleaned.csv], which it ends with; it is a string of ASCII characters
    again, and it holds no space and no capital letter. *)
Theorem cleaned_file_name_is_tidy (name : string) :
  is_ascii name →
  (∃ stem, cleaned_file_name name = stem +:+ "_cleaned.csv" ∧
           String.length stem = String.length name) ∧
  String.length (cleaned_file_name name) = String.length name + 12 ∧
  is_ascii (cleaned_file_name name) ∧
  Forall (λ c, c ≠ " "%char ∧ is_upper c = false)
    (list_ascii_of_string (cleaned_file_name name)).
Proof.
  intros Hascii.
  unfold cleaned_file_name. rewrite stem_is_tidy. split; [| split; [| split]].
  - eexists. split; [done |]. apply length_str_map.
  - by rewrite length_append, length_str_map.
  - unfold is_ascii in *. rewrite chars_append. apply Forall_app. split.
    + induction name as [|c name IH]; simpl; [done |].
      simpl in Hascii. apply Forall_cons in Hascii as [Hc Hascii].
      constructor; [by apply tidy_stays_ascii | by apply IH].
    + apply (bool_decide_unpack _). by vm_compute.
  - rewrite chars_append. apply Forall_app. split.
    + clear Hascii. induction name as [|c name IH]; simpl; constructor; [| done].
      destruct (tidy_char c) as (? & ? & _). done.
    + apply (bool_decide_unpack _). by vm_compute.
Qed.

(** X12: the cleaned path does not tell apart names that differ only in
    the case of their ASCII letters or in spaces against underscores:
    lowercasing a name, or replacing its spaces by underscores, gives the
    same cleaned path, so two such datasets would share one cleaned
    file. *)
Theorem cleaned_path_ignores_case_and_spaces (name : string) :
  cleaned_path (lower name) = cleaned_path name ∧
  cleaned_path (replace_char " " "_" name) = cleaned_path name.
Proof.
  unfold cleaned_path, cleaned_file_name. rewrite !stem_is_tidy.
  unfold lower, replace_char. rewrite !str_map_str_map. split.
  - f_equal. f_equal. apply str_map_ext. intros c. apply (tidy_char c).
  - f_equal. f_equal. apply str_map_ext. intros c. apply (tidy_char c).
Qed.

End file_names.

(** ** More about the extraction utility *)

Section extraction_more.
Import utils observed.
Context `{ZipLibrary}.

(** Extraction either writes every member or stops at the first member
    that cannot be written, with the members before it written. *)
Lemma extractall_outcome (members : list (string * string)) (path : string) :
  ∀ m,
    Forall (writable path) members ∨
    ∃ before name content after e,
      members = before ++ (name, content) :: after ∧
      Forall (writable path) before ∧
      write_error (member_target path name) = Some e ∧
      extractall members path m
      = (Raises e,
         mkMachine (interrupted before name content path (fs m)) (stdout m)).
Proof.
  induction members as [|[name content] rest IH]; intros m; [by left |].
  destruct (write_error (member_target path name)) as [e|] eqn:Hw.
  - right. exists [], name, content, rest, e. repeat split; [done.. |].
    simpl. unfold mbind, ST_bind, write_file. by rewrite Hw.
  - destruct (IH (mkMachine (<[member_target path name := content]> (fs m))
                    (stdout m)))
      as [Hall | (before & n & c & after & e & -> & Hall & He & Hrun)].
    + left. by constructor.
    + right. exists ((name, content) :: before), n, c, after, e.
      repeat split; [by constructor | done |].
      simpl. unfold mbind, ST_bind, write_file. rewrite Hw. by rewrite Hrun.
Qed.

Lemma extracted_lookup_other (members : list (string * string))
    (path : string) :
  ∀ files k,
    k ∉ targets members path → extracted members path files !! k = files !! k.
Proof.
  unfold extracted, targets.
  induction members as [|[name content] rest IH]; intros files k Hk; [done |].
  simpl in *. apply not_elem_of_cons in Hk as [Hne Hk].
  rewrite IH by done. by rewrite lookup_insert_ne.
Qed.

(** At a target, what was there before does not matter. *)
Lemma extracted_lookup_target (members : list (string * string))
    (path : string) :
  ∀ files1 files2 k,
    k ∈ targets members path →
    extracted members path files1 !! k = extracted members path files2 !! k.
Proof.
  induction members as [|[name content] rest IH]; intros files1 files2 k Hk.
  - by apply elem_of_nil in Hk.
  - change (extracted ((name, content) :: rest) path ?f)
      with (extracted rest path (<[member_target path name := content]> f)).
    destruct (decide (k ∈ targets rest path)) as [Hrest | Hrest].
    + by apply IH.
    + rewrite !extracted_lookup_other by done.
      unfold targets in Hk. simpl in Hk.
      apply elem_of_cons in Hk as [-> | ?]; [| done].
      by rewrite !lookup_insert_eq.
Qed.

Lemma extracted_twice (members : list (string * string)) (path : string)
    (files : gmap string string) :
  extracted members path (extracted members path files)
  = extracted members path files.
Proof.
  apply map_eq. intros k.
  destruct (decide (k ∈ targets members path)) as [Hk | Hk].
  - by apply extracted_lookup_target.
  - by rewrite extracted_lookup_other.
Qed.

Lemma ZipFile_open_state (path : string) (m : Machine) :
  (ZipFile_open path m).2 = m.
Proof.
  unfold ZipFile_open. destruct (fs m !! path) as [bytes|]; [| done].
  by destruct (decode_zip bytes).
Qed.

Lemma extract_datasets_success
    (input_data_path output_data_path : string) (m : Machine)
    (members : list (string * string)) :
  ZipFile_open input_data_path m = (Returns members, m) →
  Forall (writable output_data_path) members →
  extract_datasets input_data_path output_data_path m
  = (Returns tt,
     mkMachine (extracted members output_data_path (fs m))
       (stdout m ++ [completion_line input_data_path output_data_path])).
Proof.
  intros Hopen Hall. unfold extract_datasets, mbind, ST_bind.
  rewrite Hopen. by rewrite (extractall_writable _ _ _ Hall).
Qed.

Lemma extractall_first_failure
    (before after : list (string * string)) (name content path : string)
    (e : exn) :
  ∀ m,
    Forall (writable path) before →
    write_error (member_target path name) = Some e →
    extractall (before ++ (name, content) :: after) path m
    = (Raises e,
       mkMachine (interrupted before name content path (fs m)) (stdout m)).
Proof.
  induction before as [|[n c] before IH]; intros m Hall He; simpl.
  - unfold mbind, ST_bind, write_file. by rewrite He.
  - apply Forall_cons in Hall as [Hw Hall]. unfold writable in Hw. simpl in Hw.
    unfold mbind, ST_bind, write_file. rewrite Hw. by rewrite IH.
Qed.

Lemma extract_datasets_failure
    (input_data_path output_data_path : string) (m : Machine)
    (before after : list (string * string)) (name content : string) (e : exn) :
  ZipFile_open input_data_path m
    = (Returns (before ++ (name, content) :: after), m) →
  Forall (writable output_data_path) before →
  write_error (member_target output_data_path name) = Some e →
  extract_datasets input_data_path output_data_path m
  = (Raises e,
     mkMachine (interrupted before name content output_data_path (fs m))
       (stdout m)).
Proof.
  intros Hopen Hall He. unfold extract_datasets, mbind, ST_bind.
  rewrite Hopen.
  by rewrite (extractall_first_failure before after name content _ e).
Qed.

(** X13: the utility returns exactly when the archive opens and every
    member can be written; it prints its one line exactly then, and
    prints nothing when it raises. *)
Theorem extraction_returns_iff
    (input_data_path output_data_path : string) (m : Machine) :
  ((extract_datasets input_data_path output_data_path m).1 = Returns tt
   ↔ ∃ members,
       ZipFile_open input_data_path m = (Returns members, m) ∧
       Forall (writable output_data_path) members) ∧
  stdout (extract_datasets input_data_path output_data_path m).2
  = stdout m
    ++ match (extract_datasets input_data_path output_data_path m).1 with
       | Returns _ => [completion_line input_data_path output_data_path]
       | Raises _ => []
       end.
Proof.
  pose proof (ZipFile_open_state input_data_path m) as Hstate.
  destruct (ZipFile_open input_data_path m) as [[members|e] m'] eqn:Hopen;
    simpl in Hstate; subst m'.
  - destruct (extractall_outcome members output_data_path m)
      as [Hall | (before & n & c & after & e & -> & Hall & He & _)].
    + rewrite (extract_datasets_success _ _ _ _ Hopen Hall). simpl.
      split; [| done]. split; [| done]. intros _. by exists members.
    + rewrite (extract_datasets_failure _ _ _ _ _ _ _ _ Hopen Hall He). simpl.
      split; [| by rewrite app_nil_r]. split; [done |].
      intros (members & [= <-] & Hw).
      apply Forall_app in Hw as [_ Hw]. apply Forall_cons in Hw as [Hw _].
      unfold writable in Hw. simpl in Hw. congruence.
  - unfold extract_datasets, mbind, ST_bind. rewrite Hopen. simpl.
    split; [| by rewrite app_nil_r]. split; [done |].
    by intros (members & ? & _).
Qed.

(** Every target of a list of members holds a file once they are
    written. *)
Lemma extracted_targets_present (members : list (string * string))
    (path : string) :
  ∀ files k,
    k ∈ targets members path → is_Some (extracted members path files !! k).
Proof.
  unfold extracted, targets.
  induction members as [|[n c] rest IH] using rev_ind; intros files k Hk;
    [by apply elem_of_nil in Hk |].
  rewrite foldl_app. simpl.
  destruct (decide (member_target path n = k)) as [<- | Hne].
  - rewrite lookup_insert_eq. by eexists.
  - rewrite lookup_insert_ne by done. apply IH.
    rewrite fmap_app in Hk. apply elem_of_app in Hk as [? | Hk]; [done |].
    apply list_elem_of_singleton in Hk. simpl in Hk. congruence.
Qed.

(** X14: there is no rollback. When the archive opens and a member
    cannot be written while all members before it can, the utility raises
    the error of that write and prints nothing. The target of the failing
    member holds what the failed write left there; everywhere else the
    files are those after the members before it were written, so these
    members stay extracted, no later member is written, and a path that is
    no target of the members up to the failing one holds what it held
    before the call. *)
Theorem extraction_stops_at_the_first_failure
    (input_data_path output_data_path : string) (m : Machine)
    (before after : list (string * string)) (name content : string) (e : exn) :
  ZipFile_open input_data_path m
    = (Returns (before ++ (name, content) :: after), m) →
  Forall (writable output_data_path) before →
  write_error (member_target output_data_path name) = Some e →
  ∃ files,
    extract_datasets input_data_path output_data_path m
    = (Raises e, mkMachine files (stdout m)) ∧
    files !! member_target output_data_path name
    = failed_write (member_target output_data_path name) content
        (extracted before output_data_path (fs m)
           !! member_target output_data_path name) ∧
    (∀ k, k ≠ member_target output_data_path name →
          files !! k = extracted before output_data_path (fs m) !! k) ∧
    (∀ k, k ∈ targets before output_data_path →
          k ≠ member_target output_data_path name → is_Some (files !! k)) ∧
    (∀ k, k ∉ targets (before ++ [(name, content)]) output_data_path →
          files !! k = fs m !! k).
Proof.
  intros Hopen Hall He.
  exists (interrupted before name content output_data_path (fs m)).
  split; [exact (extract_datasets_failure _ _ _ _ _ _ _ _ Hopen Hall He) |].
  unfold interrupted.
  split; [by rewrite lookup_partial_alter_eq |].
  assert (∀ k, k ≠ member_target output_data_path name →
            partial_alter
              (failed_write (member_target output_data_path name) content)
              (member_target output_data_path name)
              (extracted before output_data_path (fs m)) !! k
            = extracted before output_data_path (fs m) !! k) as Hother.
  { intros k Hk. by rewrite lookup_partial_alter_ne. }
  split; [exact Hother |]. split.
  - intros k Hk Hne. rewrite Hother by done.
    by apply extracted_targets_present.
  - intros k Hk. unfold targets in Hk. rewrite fmap_app in Hk.
    apply not_elem_of_app in Hk as [Hbefore Hname].
    apply not_elem_of_cons in Hname as [Hname _]. simpl in Hname.
    rewrite Hother by done. by apply extracted_lookup_other.
Qed.

(** X15: whatever the outcome, the utility changes no path that is not
    the target of a member of the archive; in particular a destination
    that differs from the archive's own path leaves the archive in
    place when no member lands on it. *)
Theorem extraction_touches_only_targets
    (input_data_path output_data_path : string) (m : Machine) (k : string) :
  (∀ members, ZipFile_open input_data_path m = (Returns members, m) →
              k ∉ targets members output_data_path) →
  fs (extract_datasets input_data_path output_data_path m).2 !! k = fs m !! k.
Proof.
  intros Hk.
  pose proof (ZipFile_open_state input_data_path m) as Hstate.
  destruct (ZipFile_open input_data_path m) as [[members|e] m'] eqn:Hopen;
    simpl in Hstate; subst m'.
  - specialize (Hk members eq_refl).
    destruct (extractall_outcome members output_data_path m)
      as [Hall | (before & n & c & after & e & -> & Hall & He & _)].
    + rewrite (extract_datasets_success _ _ _ _ Hopen Hall). simpl.
      by apply extracted_lookup_other.
    + rewrite (extract_datasets_failure _ _ _ _ _ _ _ _ Hopen Hall He). simpl.
      unfold targets in Hk. rewrite fmap_app in Hk.
      apply not_elem_of_app in Hk as [Hbefore Hrest].
      apply not_elem_of_cons in Hrest as [Hname _]. simpl in Hname.
      unfold interrupted. rewrite lookup_partial_alter_ne by done.
      by apply extracted_lookup_other.
  - unfold extract_datasets, mbind, ST_bind. by rewrite Hopen.
Qed.

(** X16: extracting again changes no file. When the archive opens, every
    member can be written and no member lands on the archive itself, a
    second call on the machine the first one left returns as well, leaves
    every file as the first call left it, and prints its line a second
    time. *)
Theorem extraction_twice_changes_no_file
    (input_data_path output_data_path : string) (m : Machine)
    (members : list (string * string)) :
  ZipFile_open input_data_path m = (Returns members, m) →
  Forall (writable output_data_path) members →
  input_data_path ∉ targets members output_data_path →
  ∃ m1,
    extract_datasets input_data_path output_data_path m = (Returns tt, m1) ∧
    extract_datasets input_data_path output_data_path m1
    = (Returns tt,
       mkMachine (fs m1)
         (stdout m ++ [completion_line input_data_path output_data_path;
                       completion_line input_data_path output_data_path])).
Proof.
  intros Hopen Hall Hself. eexists. split; [by apply extract_datasets_success |].
  set (m1 := mkMachine (extracted members output_data_path (fs m))
               (stdout m ++ [completion_line input_data_path output_data_path])).
  assert (ZipFile_open input_data_path m1 = (Returns members, m1)) as Hopen1.
  { unfold ZipFile_open in *. simpl.
    rewrite extracted_lookup_other by done.
    destruct (fs m !! input_data_path) as [bytes|]; [| done].
    destruct (decode_zip bytes); [| done]. by injection Hopen as ->. }
  rewrite (extract_datasets_success _ _ _ _ Hopen1 Hall). simpl.
  by rewrite extracted_twice, <- app_assoc.
Qed.

End extraction_more.

(** ** Closed examples of the further properties *)

Section further_examples.
Import samples observed.
Local Existing Instances reader cleaning detector drawing.

Lemma sample_cleaning_returns : Forall cleans DATASETS.
Proof. repeat constructor; eexists; reflexivity. Qed.

(** Two of the three sample loads fail; the loop goes through all three
    datasets and shows the two errors. *)
Lemma loading_outlives_failed_loads_on_samples :
  Forall cleans DATASETS ∧
  (load_and_clean_all_datasets blank).1
  = Returns (cleaned_tables DATASETS ∅, raw_tables DATASETS ∅) ∧
  ui (load_and_clean_all_datasets blank).2 = load_errors DATASETS.
Proof.
  split; [exact sample_cleaning_returns |].
  destruct (loading_outlives_failed_loads blank sample_cleaning_returns)
    as (Hret & Hui & _).
  split; [exact Hret | exact Hui].
Defined.

(** The cleaned file of the second dataset cannot be written: the run
    raises, whichever dataset is selected. *)
Lemma cleaning_failure_on_samples :
  DATASETS
  = [("Benin Malanville", benin)]
    ++ ("Sierra Leone Bumbuna", "data/original_datasets/sierraleone-bumbuna.csv")
       :: [("Togo Dapaong QC", "data/original_datasets/togo-dapaong_qc.csv")] ∧
  Forall (@cleans reader failing_cleaning) [("Benin Malanville", benin)] ∧
  (@run reader failing_cleaning detector drawing "Togo Dapaong QC" blank).1
  = Raises (Exception "PermissionError" "[Errno 13] Permission denied").
Proof.
  assert (DATASETS
          = [("Benin Malanville", benin)]
            ++ ("Sierra Leone Bumbuna",
                "data/original_datasets/sierraleone-bumbuna.csv")
               :: [("Togo Dapaong QC",
                    "data/original_datasets/togo-dapaong_qc.csv")]) as Hsplit
    by reflexivity.
  assert (Forall (@cleans reader failing_cleaning) [("Benin Malanville", benin)])
    as Hall by (repeat constructor; eexists; reflexivity).
  split; [exact Hsplit |]. split; [exact Hall |].
  exact (proj1 (@cleaning_failure_stops_the_script reader failing_cleaning
                  detector drawing _ _ _ _
                  (Exception "PermissionError" "[Errno 13] Permission denied")
                  "Togo Dapaong QC" blank Hsplit Hall eq_refl)).
Defined.

(** A name outside the configuration selects the empty table. *)
Lemma unknown_name_on_samples :
  load_and_clean_all_datasets blank
  = (Returns (cleaned_tables DATASETS ∅, raw_tables DATASETS ∅),
     mkWorld (ui blank ++ load_errors DATASETS) (written DATASETS (disk blank))
       (calls blank)) ∧
  selected_dataset (cleaned_tables DATASETS ∅) (raw_tables DATASETS ∅)
    "Mali Bamako" = empty_frame.
Proof.
  pose proof (load_and_clean_loop_all_clean DATASETS ∅ ∅ blank
                sample_cleaning_returns) as Hrun.
  split; [exact Hrun |].
  apply (unknown_name_selects_empty_table _ _ _ _ Hrun).
  apply (bool_decide_unpack _). by vm_compute.
Defined.

(** The Togo file is missing: selecting Togo stops the page. *)
Lemma togo_stops_the_page :
  ("Togo Dapaong QC", "data/original_datasets/togo-dapaong_qc.csv") ∈ DATASETS ∧
  series (raw "data/original_datasets/togo-dapaong_qc.csv") = [] ∧
  ∃ w',
    run "Togo Dapaong QC" blank
    = (Raises (Exception "ValueError"
                 "Cannot describe a DataFrame without columns"), w') ∧
    calls w' = calls blank.
Proof.
  assert (("Togo Dapaong QC", "data/original_datasets/togo-dapaong_qc.csv")
            ∈ DATASETS) as Hin
    by (apply (bool_decide_unpack _); by vm_compute).
  split; [exact Hin |]. split; [reflexivity |].
  exact (selection_without_columns_stops_the_page _ _ blank Hin
           sample_cleaning_returns eq_refl).
Defined.

(** The Benin file is there and has columns: selecting Benin returns. *)
Lemma benin_run_returns :
  ("Benin Malanville", benin) ∈ DATASETS ∧
  (run "Benin Malanville" blank).1 = Returns tt.
Proof.
  assert (("Benin Malanville", benin) ∈ DATASETS) as Hin
    by (apply (bool_decide_unpack _); by vm_compute).
  split; [exact Hin |].
  apply (run_returns_iff "Benin Malanville" benin blank Hin).
  split; [exact sample_cleaning_returns | done].
Defined.

(** The helpers on the sample readings. *)
Lemma helpers_on_readings :
  NoDup (columns readings) ∧
  ∃ es cs,
    chart_tabs readings blank = (Returns tt, extend blank es cs) ∧
    ∀ h t, (h, t) ∈ cs →
      if bool_decide (h ∈ [DetectOutliers; SnsBoxplot])
      then columns t = outlier_columns ∧ nrows t = nrows readings ∧
           ∀ col, col ∈ outlier_columns →
                  get_series (series t) col = get_series (series readings) col
      else t = readings.
Proof.
  assert (NoDup (columns readings)) as Hnames
    by (apply (bool_decide_unpack _); by vm_compute).
  split; [exact Hnames |].
  exact (helpers_get_the_selected_table readings blank Hnames).
Defined.

(** One outlier is counted on the sample readings. *)
Lemma outlier_count_on_readings :
  runs OutlierDetection readings = true ∧
  detect_result (input OutlierDetection readings) outlier_columns = Returns [5] ∧
  ∃ es cs,
    chart_tabs readings blank = (Returns tt, extend blank es cs) ∧
    outlier_count 1 ∈ es.
Proof.
  assert (detect_result (input OutlierDetection readings) outlier_columns
          = Returns [5]) as Hrows by (by vm_compute).
  split; [reflexivity |]. split; [exact Hrows |].
  destruct (outlier_count_is_shown readings blank [5] eq_refl Hrows)
    as (es & cs & Hrun & Hcount & _).
  exists es, cs. split; [exact Hrun | exact Hcount].
Defined.

End further_examples.

Section further_extraction_examples.
Import samples observed utils.

(** The disk fills up while the second member is copied: the first stays
    extracted, an empty file is left at the target of the second, nothing
    is printed. *)
Lemma extraction_stops_on_samples :
  @ZipFile_open full_disk_library "data.zip" machine
  = (Returns ([("a.csv", "1,2")] ++ ("b.csv", "3,4") :: []), machine) ∧
  Forall (@writable full_disk_library "out") [("a.csv", "1,2")] ∧
  ∃ files,
    @extract_datasets full_disk_library "data.zip" "out" machine
    = (Raises (Exception "OSError" "[Errno 28] No space left on device"),
       mkMachine files (stdout machine)) ∧
    files !! "out/a.csv" = Some "1,2" ∧
    files !! "out/b.csv" = Some EmptyString ∧
    files !! "notes.txt" = Some "hello".
Proof.
  assert (@ZipFile_open full_disk_library "data.zip" machine
          = (Returns ([("a.csv", "1,2")] ++ ("b.csv", "3,4") :: []), machine))
    as Hopen by (by vm_compute).
  assert (Forall (@writable full_disk_library "out") [("a.csv", "1,2")]) as Hall
    by (repeat constructor).
  split; [exact Hopen |]. split; [exact Hall |].
  destruct (@extraction_stops_at_the_first_failure full_disk_library
              "data.zip" "out" machine _ _ _ _
              (Exception "OSError" "[Errno 28] No space left on device")
              Hopen Hall eq_refl)
    as (files & Hrun & Hleft & Hother & _ & Hframe).
  exists files. split; [exact Hrun |]. split; [| split].
  - rewrite (Hother "out/a.csv") by (by vm_compute). by vm_compute.
  - exact Hleft.
  - rewrite (Hframe "notes.txt"); [by vm_compute |].
    apply (bool_decide_unpack _). by vm_compute.
Defined.

(** The text file next to the archive is not touched. *)
Lemma extraction_leaves_notes :
  (∀ members,
     @ZipFile_open zip_library "data.zip" machine = (Returns members, machine) →
     "notes.txt" ∉ @targets zip_library members "out") ∧
  fs (@extract_datasets zip_library "data.zip" "out" machine).2 !! "notes.txt"
  = fs machine !! "notes.txt".
Proof.
  assert (∀ members,
            @ZipFile_open zip_library "data.zip" machine
              = (Returns members, machine) →
            "notes.txt" ∉ @targets zip_library members "out") as Hother.
  { intros members Hopen.
    assert (members = [("a.csv", "1,2"); ("b.csv", "3,4")]) as ->
      by (vm_compute in Hopen; by injection Hopen as <-).
    apply (bool_decide_unpack _). by vm_compute. }
  split; [exact Hother |].
  exact (@extraction_touches_only_targets zip_library "data.zip" "out" machine
           "notes.txt" Hother).
Defined.

(** Extracting the sample archive twice. *)
Lemma extraction_twice_on_samples :
  @ZipFile_open zip_library "data.zip" machine
  = (Returns [("a.csv", "1,2"); ("b.csv", "3,4")], machine) ∧
  Forall (@writable zip_library "out") [("a.csv", "1,2"); ("b.csv", "3,4")] ∧
  ("data.zip" ∉ @targets zip_library [("a.csv", "1,2"); ("b.csv", "3,4")] "out") ∧
  ∃ m1,
    @extract_datasets zip_library "data.zip" "out" machine = (Returns tt, m1) ∧
    @extract_datasets zip_library "data.zip" "out" m1
    = (Returns tt,
       mkMachine (fs m1)
         (stdout machine
            ++ [@completion_line "data.zip" "out";
                @completion_line "data.zip" "out"])).
Proof.
  assert (@ZipFile_open zip_library "data.zip" machine
          = (Returns [("a.csv", "1,2"); ("b.csv", "3,4")], machine)) as Hopen
    by (by vm_compute).
  assert (Forall (@writable zip_library "out")
            [("a.csv", "1,2"); ("b.csv", "3,4")]) as Hall
    by (repeat constructor).
  assert ("data.zip" ∉ @targets zip_library
                         [("a.csv", "1,2"); ("b.csv", "3,4")] "out") as Hself
    by (apply (bool_decide_unpack _); by vm_compute).
  split; [exact Hopen |]. split; [exact Hall |]. split; [exact Hself |].
  exact (@extraction_twice_changes_no_file zip_library "data.zip" "out" machine
           _ Hopen Hall Hself).
Defined.

End further_extraction_examples.

Section cleaned_path_examples.
Import observed.

(** The cleaned path of the first configured dataset. *)
Lemma benin_cleaned_path :
  is_ascii "Benin Malanville" ∧
  starts_with_slash "Benin Malanville" = false ∧
  cleaned_path "Benin Malanville"
  = "data/cleaned_datasets/benin_malanville_cleaned.csv".
Proof.
  assert (is_ascii "Benin Malanville") as Hascii
    by (apply (bool_decide_unpack _); by vm_compute).
  split; [exact Hascii |]. split; [reflexivity |].
  exact (cleaned_path_derived_from_name "Benin Malanville" Hascii eq_refl).
Defined.

(** The cleaned file name of the third configured dataset. *)
Lemma togo_cleaned_file_name :
  is_ascii "Togo Dapaong QC" ∧
  String.length (cleaned_file_name "Togo Dapaong QC") = 27 ∧
  is_ascii (cleaned_file_name "Togo Dapaong QC").
Proof.
  assert (is_ascii "Togo Dapaong QC") as Hascii
    by (apply (bool_decide_unpack _); by vm_compute).
  split; [exact Hascii |].
  destruct (cleaned_file_name_is_tidy "Togo Dapaong QC" Hascii)
    as (_ & Hlength & Hplain & _).
  split; [exact Hlength | exact Hplain].
Defined.

End cleaned_path_examples.
